(** * MCP-Server-EstacionApp: the parking-analysis tool and its HTTP dispatcher

    A shallow embedding of [src/mcp-server.js] and of its sibling
    [src/unnamed/part_000] (the same server with the flat-field prompt).

    - request bodies are JSON values as [body-parser] delivers them;
    - [undefined] is [None] in [value := option JSON];
    - a JavaScript exception is the [Throw] branch of [result];
    - the chat-completion service is an oracle of the [world] the handler
      runs in, and every call made to it is recorded in the returned trace;
    - [console.log] and the [Date.now] timing are diagnostics only and are
      left out. *)

From Stdlib Require Import ZArith DecimalString.
From stdpp Require Import gmap strings list fin_maps.

Open Scope string_scope.
Set Warnings "-register-all".

(** ** JSON values and JavaScript exceptions *)

(** Numbers are the integer-valued ones (the counts [total], [totalFull];
    distances arrive string-encoded). *)
Inductive JSON :=
| JNull
| JBool (b : bool)
| JNum (n : Z)
| JStr (s : string)
| JArr (elts : list JSON)
| JObj (props : list (string * JSON)).

(** A JavaScript value read out of a JSON document: [None] is [undefined]. *)
Abbreviation value := (option JSON).

(** What can be thrown: a [TypeError] of the engine, kept by its cause, or
    whatever the completion client raises (connection, status and time-out
    errors), kept by its message. *)
Inductive type_error :=
| ReadOfUndefined (p : string)   (* property [p] read from [undefined] *)
| ReadOfNull (p : string)        (* property [p] read from [null] *)
| NotAFunction (expr : string)   (* [expr(...)] where [expr] is not callable *)
| NoPrimitiveValue.              (* an object that converts to no primitive *)

Inductive js_error :=
| TypeError (cause : type_error)
| ServiceError (msg : string).

Definition is_TypeError (e : js_error) : bool :=
  match e with TypeError _ => true | ServiceError _ => false end.

Inductive result (A : Type) :=
| Ok (a : A)
| Throw (e : js_error).
Arguments Ok {A} a.
Arguments Throw {A} e.

(** Sequencing: an exception skips the rest ([x ← r; k] is stdpp's
    notation for [mbind]). *)
#[global] Instance result_bind : MBind result := λ A B k r,
  match r with Ok a => k a | Throw e => Throw e end.

(** [l.map(f)] and [l.reduce(f, init)] with a callback that may throw:
    elements are visited left to right and the first exception escapes. *)
Fixpoint mapM {A B} (f : A → result B) (l : list A) : result (list B) :=
  match l with
  | [] => Ok []
  | x :: r => y ← f x ; ys ← mapM f r ; Ok (y :: ys)
  end.

Fixpoint reduce {A B} (f : B → A → result B) (l : list A) (acc : B) : result B :=
  match l with
  | [] => Ok acc
  | x :: r => acc' ← f acc x ; reduce f r acc'
  end.

(** ** Property reads, truthiness, string conversion *)

(** Own property of a parsed object: the first binding of the key. *)
Fixpoint assoc (k : string) (props : list (string * JSON)) : value :=
  match props with
  | [] => None
  | (k', v) :: r => if String.eqb k k' then Some v else assoc k r
  end.

(** [v.p] for the fixed identifiers [p] the source reads this way
    ([input], [data], [instancias], [contenido], [nombreId], [valor],
    [total], [distancia], ...): none of them is [length], an index or a
    member of a built-in prototype, so only a parsed object can hold one;
    reading from [undefined] or [null] throws. The result is what the
    document supplies: for the name of a built-in member, [None] stands for
    the inherited built-in. *)
Definition get (v : value) (p : string) : result value :=
  match v with
  | None => Throw (TypeError (ReadOfUndefined p))
  | Some JNull => Throw (TypeError (ReadOfNull p))
  | Some (JObj props) => Ok (assoc p props)
  | Some _ => Ok None
  end.

(** ToBoolean. *)
Definition truthy (v : value) : bool :=
  match v with
  | None | Some JNull => false
  | Some (JBool b) => b
  | Some (JNum n) => negb (n =? 0)%Z
  | Some (JStr s) => negb (String.eqb s "")
  | Some (JArr _) | Some (JObj _) => true
  end.

(** [a || d] with a string literal [d]. *)
Definition or_default (a : value) (d : string) : JSON :=
  if truthy a then default (JStr d) a else JStr d.

Definition string_of_Z (n : Z) : string := NilZero.string_of_int (Z.to_int n).

Definition has_key (k : string) (props : list (string * JSON)) : bool :=
  match assoc k props with Some _ => true | None => false end.

(** ToString, as a template literal applies it. An array joins its
    elements with commas ([null] elements print as nothing); a parsed object
    prints through [Object.prototype.toString] unless an own [toString]
    property (never callable in JSON) shadows it, in which case no
    primitive can be obtained. *)
Fixpoint to_string (j : JSON) : result string :=
  match j with
  | JNull => Ok "null"
  | JBool true => Ok "true"
  | JBool false => Ok "false"
  | JNum n => Ok (string_of_Z n)
  | JStr s => Ok s
  | JArr elts =>
      let elt x := match x with JNull => Ok "" | _ => to_string x end in
      (fix join (l : list JSON) : result string :=
         match l with
         | [] => Ok ""
         | x :: r =>
             s ← elt x ;
             match r with
             | [] => Ok s
             | _ :: _ => t ← join r ; Ok (s +:+ "," +:+ t)
             end
         end) elts
  | JObj props =>
      if has_key "toString" props
      then Throw (TypeError NoPrimitiveValue)
      else Ok "[object Object]"
  end.

Definition to_string_value (v : value) : result string :=
  match v with None => Ok "undefined" | Some j => to_string j end.

(** ToPropertyKey of a computed member expression [acc[k]]. *)
Definition to_property_key (k : value) : result string := to_string_value k.

(** [s.includes(needle)] on strings. *)
Fixpoint includes (needle s : string) : bool :=
  String.prefix needle s ||
  match s with
  | EmptyString => false
  | String _ r => includes needle r
  end.

(** ** The accumulator of the fold: an ordinary object *)

(** The object literal [{}] the fold starts from is an ordinary object: own
    properties, and a prototype link that an assignment to [__proto__] can
    redirect to a value of the document. *)
Inductive prototype :=
| ObjectPrototype
| NullPrototype
| ValuePrototype (j : JSON).

Record js_object := { own : gmap string value; proto : prototype }.

Definition empty_object : js_object := {| own := ∅; proto := ObjectPrototype |}.

(** Does an assignment to [__proto__] still reach the accessor of
    [Object.prototype]? Not past a [null] prototype, and not past a parsed
    object that has its own [__proto__] data property. *)
Definition inherits_proto_setter (p : prototype) : bool :=
  match p with
  | ObjectPrototype => true
  | NullPrototype => false
  | ValuePrototype (JObj props) => negb (has_key "__proto__" props)
  | ValuePrototype _ => true
  end.

(** The accessor itself: objects and [null] become the prototype, any
    other value is ignored. *)
Definition set_prototype_of (o : js_object) (v : value) : js_object :=
  match v with
  | Some (JObj props) => {| own := own o; proto := ValuePrototype (JObj props) |}
  | Some (JArr elts) => {| own := own o; proto := ValuePrototype (JArr elts) |}
  | Some JNull => {| own := own o; proto := NullPrototype |}
  | _ => o
  end.

(** [o[k] = v]. Every property met on the prototype chain is a writable
    data property, except the [__proto__] accessor: the assignment creates
    or overwrites an own property of [o], or runs that accessor. *)
Definition set_prop (o : js_object) (k : string) (v : value) : js_object :=
  match own o !! k with
  | Some _ => {| own := <[k := v]> (own o); proto := proto o |}
  | None =>
      if String.eqb k "__proto__" && inherits_proto_setter (proto o)
      then set_prototype_of o v
      else {| own := <[k := v]> (own o); proto := proto o |}
  end.

(** [o.k] for the attribute names the template reads ([calle], [altura],
    [permiso], [horario], [lado]): the own property, else the one of a
    parsed object installed as prototype. For other keys the reading is
    the engine's whenever [k] is an own property or the prototype is
    [Object.prototype] or a parsed object ([None] then standing for what
    [Object.prototype] yields); the indices and [length] of an array
    installed as prototype are not represented. *)
Definition acc_get (o : js_object) (k : string) : value :=
  match own o !! k with
  | Some v => v
  | None =>
      match proto o with
      | ValuePrototype (JObj props) => assoc k props
      | _ => None
      end
  end.

(** ** The tool's result and the completion service *)

Record content_block := { type : string; text : value }.

Record metadata_block := {
  totalEstacionamientos : value;
  estacionamientosPermitidos : nat;
  estacionamientosProhibidos : nat
}.

(** [error = false] stands for a result without the [error] property. *)
Record analysis_result := {
  content : list content_block;
  metadata : option metadata_block;
  error : bool
}.

(** The argument of [openai.chat.completions.create]; [temperature] is the
    decimal 0.3 kept as the fraction 3/10. *)
Record chat_request := {
  model : string;
  system_content : string;
  user_content : string;
  temperature : Z * Z
}.

(** What a run depends on besides the request: the completion service
    (one answer or one exception per call), the engine's text for its own
    errors and for [err.stack], and [process.env.NODE_ENV]. *)
Record world := {
  completions_create : chat_request → result JSON;
  engine_message : type_error → string;
  stack : js_error → value;
  NODE_ENV : option string
}.

(** [error.message] *)
Definition message (w : world) (e : js_error) : string :=
  match e with
  | TypeError t => engine_message w t
  | ServiceError m => m
  end.

(** [response.choices[0].message.content]. Indexing a string yields a
    one-character string (kept here by its first byte); only its being a
    string matters, [.message] of it is [undefined]. *)
Definition first_element (v : value) : result value :=
  match v with
  | None => Throw (TypeError (ReadOfUndefined "0"))
  | Some JNull => Throw (TypeError (ReadOfNull "0"))
  | Some (JArr elts) => Ok (head elts)
  | Some (JObj props) => Ok (assoc "0" props)
  | Some (JStr s) =>
      match s with
      | EmptyString => Ok None
      | String c _ => Ok (Some (JStr (String c EmptyString)))
      end
  | Some _ => Ok None
  end.

Definition first_choice_content (response : JSON) : result value :=
  choices ← get (Some response) "choices";
  choice ← first_element choices;
  msg ← get choice "message";
  get msg "content".

Definition nl : string := String (Ascii.ascii_of_nat 10) EmptyString.

(** [a.map((x, i) => f(i, x))] *)
Fixpoint mapiM_from {A B} (i : nat) (f : nat → A → result B) (l : list A) : result (list B) :=
  match l with
  | [] => Ok []
  | x :: r => y ← f i x; ys ← mapiM_from (S i) f r; Ok (y :: ys)
  end.

(** [strings.join('')] *)
Definition join_empty (l : list string) : string := foldr String.append "" l.

(** The guard [!data.instancias || data.instancias.length === 0]. *)
Definition length_is_zero (j : JSON) : bool :=
  match j with
  | JArr [] => true
  | JStr EmptyString => true
  | JObj props => match assoc "length" props with Some (JNum 0) => true | _ => false end
  | _ => false
  end.

Definition no_instancias (instancias : value) : bool :=
  negb (truthy instancias) || length_is_zero (default JNull instancias).

(** ** The HTTP side *)

(** What the route does with a request: it answers with a status and a JSON
    body, or an exception escapes the route (no answer is written). *)
Inductive http_outcome :=
| Respond (status : Z) (body : JSON)
| Unhandled (e : js_error).

(** What a run does besides answering. *)
Inductive event :=
| HandlerInvoked (toolName : string)
| CompletionCall (req : chat_request).

Definition handler_type : Type := world → value → list chat_request * result analysis_result.

(** [tools.get(name)] on the registry, a [Map] in insertion order. *)
Fixpoint tools_get (tools : list (string * handler_type)) (name : string) : option handler_type :=
  match tools with
  | [] => None
  | (n, h) :: r => if String.eqb name n then Some h else tools_get r name
  end.

(** [Array.from(tools.keys())] *)
Definition tools_keys (tools : list (string * handler_type)) : list string := map fst tools.

(** [!input || !input.data] *)
Definition lacks_data (input : value) : bool :=
  negb (truthy input) ||
  match get input "data" with
  | Ok data => negb (truthy data)
  | Throw _ => true
  end.

(** [JSON.stringify] of an object literal drops the properties whose value
    is [undefined]. *)
Definition prop (k : string) (v : value) : list (string * JSON) :=
  match v with Some j => [(k, j)] | None => [] end.

Definition json_of_block (b : content_block) : JSON :=
  JObj (("type", JStr (type b)) :: prop "text" (text b)).

Definition json_of_metadata (m : metadata_block) : JSON :=
  JObj (prop "totalEstacionamientos" (totalEstacionamientos m) ++
        [("estacionamientosPermitidos", JNum (Z.of_nat (estacionamientosPermitidos m)));
         ("estacionamientosProhibidos", JNum (Z.of_nat (estacionamientosProhibidos m)))]).

Definition props_of_result (r : analysis_result) : list (string * JSON) :=
  [("content", JArr (map json_of_block (content r)))] ++
  prop "metadata" (json_of_metadata <$> metadata r) ++
  (if error r then [("error", JBool true)] else []).

Definition text_block (s : string) : content_block := {| type := "text"; text := Some (JStr s) |}.

(** ** [src/mcp-server.js] *)

Module McpServer.

(** The reducer [(acc, item) => { acc[item.nombreId] = item.valor; return acc; }] *)
Definition fold_item (acc : js_object) (item : JSON) : result js_object :=
  nombreId ← get (Some item) "nombreId";
  valor ← get (Some item) "valor";
  key ← to_property_key nombreId;
  Ok (set_prop acc key valor).

(** [est.contenido.contenido.reduce(..., {})] *)
Definition contenido_reduce (est : JSON) : result js_object :=
  contenido ← get (Some est) "contenido";
  items ← get contenido "contenido";
  match items with
  | Some (JArr l) => reduce fold_item l empty_object
  | None => Throw (TypeError (ReadOfUndefined "reduce"))
  | Some JNull => Throw (TypeError (ReadOfNull "reduce"))
  | Some _ => Throw (TypeError (NotAFunction "est.contenido.contenido.reduce"))
  end.

(** The record [{ ...est, detalles: contenido }]: the own properties of
    [est], and the folded attributes. *)
Record estacionamiento := {
  est_props : list (string * JSON);
  detalles : js_object
}.

(** [...est]; only a parsed object gets this far, the fold has thrown on
    everything else. *)
Definition spread (est : JSON) : list (string * JSON) :=
  match est with JObj props => props | _ => [] end.

Definition normalize (est : JSON) : result estacionamiento :=
  contenido ← contenido_reduce est;
  Ok {| est_props := spread est; detalles := contenido |}.

(** [data.instancias.map(est => ...)] *)
Definition estacionamientos (instancias : value) : result (list estacionamiento) :=
  match instancias with
  | Some (JArr l) => mapM normalize l
  | None => Throw (TypeError (ReadOfUndefined "map"))
  | Some JNull => Throw (TypeError (ReadOfNull "map"))
  | Some _ => Throw (TypeError (NotAFunction "data.instancias.map"))
  end.

(** The six fields of one block, defaults applied. *)
Definition calle (e : estacionamiento) : JSON :=
  or_default (acc_get (detalles e) "calle") "Calle no especificada".
Definition altura (e : estacionamiento) : JSON :=
  or_default (acc_get (detalles e) "altura") "S/N".
Definition permiso (e : estacionamiento) : JSON :=
  or_default (acc_get (detalles e) "permiso") "Sin datos".
Definition horario (e : estacionamiento) : JSON :=
  or_default (acc_get (detalles e) "horario") "Sin horario".
Definition lado (e : estacionamiento) : JSON :=
  or_default (acc_get (detalles e) "lado") "".
Definition distancia (e : estacionamiento) : JSON :=
  or_default (assoc "distancia" (est_props e)) "N/D".

(** The block of one location, [i] counted from 0. *)
Definition render_block (i : nat) (e : estacionamiento) : result string :=
  s_calle ← to_string (calle e);
  s_altura ← to_string (altura e);
  s_lado ← to_string (lado e);
  s_permiso ← to_string (permiso e);
  s_horario ← to_string (horario e);
  s_distancia ← to_string (distancia e);
  Ok ("
📍 " +:+ string_of_Z (Z.of_nat i + 1) +:+ ". " +:+ s_calle +:+ " " +:+ s_altura +:+ " (" +:+ s_lado +:+ ")
- Tipo: " +:+ s_permiso +:+ "
- Horario: " +:+ s_horario +:+ "
- Distancia: " +:+ s_distancia +:+ " metros
").

(** The Prompt Builder: the template literal of the handler. *)
Definition build_prompt (total totalFull : value) (ests : list estacionamiento) : result string :=
  s_total ← to_string_value total;
  s_totalFull ← to_string_value totalFull;
  blocks ← mapiM_from 0 render_block ests;
  Ok ("Como experto en tránsito de CABA, analiza estos estacionamientos en formato claro y estructurado:

**Datos generales:**
- Total encontrados: " +:+ s_total +:+ "
- Disponibles para estacionar: " +:+ s_totalFull +:+ "

**Detalle por ubicación:**
" +:+ join_empty blocks +:+ "

**Formato requerido para la respuesta:**
1. 🅿️ RESUMEN: Breve resumen de disponibilidad
2. ✅ UBICACIONES PERMITIDAS: Lista clara de calles y horarios donde se puede estacionar
3. 🚫 RESTRICCIONES: Zonas prohibidas o con limitaciones
4. 💡 RECOMENDACIÓN: Mejor opción basada en distancia y disponibilidad
5. 📌 OBSERVACIONES: Cualquier dato adicional relevante

**Sé conciso pero preciso, usando emojis para mejor legibilidad.**").

Definition chat_request_of (prompt : string) : chat_request :=
  {| model := "openai/gpt-3.5-turbo";
     system_content := "Eres un asistente especializado en movilidad urbana de Buenos Aires. Proporciona información clara y estructurada con emojis relevantes.";
     user_content := prompt;
     temperature := (3, 10)%Z |}.

(** [e.detalles.permiso?.includes(needle)], as the [filter] predicate. *)
Definition permiso_includes (needle : string) (e : estacionamiento) : result bool :=
  match acc_get (detalles e) "permiso" with
  | None | Some JNull => Ok false
  | Some (JStr s) => Ok (includes needle s)
  | Some (JArr elts) =>
      Ok (existsb (λ x, match x with JStr s => String.eqb s needle | _ => false end) elts)
  | Some _ => Throw (TypeError (NotAFunction "e.detalles.permiso?.includes"))
  end.

(** [estacionamientos.filter(e => ...).length] *)
Definition count_kept (keep : bool) (n : nat) : nat := if keep then S n else n.

Fixpoint count_permiso (needle : string) (ests : list estacionamiento) : result nat :=
  match ests with
  | [] => Ok 0
  | e :: r =>
      keep ← permiso_includes needle e;
      n ← count_permiso needle r;
      Ok (count_kept keep n)
  end.

(** The guarded early return. *)
Definition no_encontrados : analysis_result :=
  {| content := [text_block "🚫 No se encontraron estacionamientos disponibles en la zona."];
     metadata := None;
     error := false |}.

(** The body of [try]. *)
Definition try_block (w : world) (total : value) (ests : list estacionamiento)
    (prompt : string) : result analysis_result :=
  response ← completions_create w (chat_request_of prompt);
  analysis ← first_choice_content response;
  permitidos ← count_permiso "PERMITIDO" ests;
  prohibidos ← count_permiso "PROHIBIDO" ests;
  Ok {| content := [{| type := "text"; text := analysis |}];
        metadata := Some {| totalEstacionamientos := total;
                            estacionamientosPermitidos := permitidos;
                            estacionamientosProhibidos := prohibidos |};
        error := false |}.

(** The body of [catch (error)]. *)
Definition catch_block (w : world) (e : js_error) : analysis_result :=
  {| content := [text_block ("⚠️ Error al analizar los estacionamientos: " +:+ message w e)];
     metadata := None;
     error := true |}.

(** Everything the handler does before it calls the service: [None] is
    the early return, otherwise the count, the records and the prompt. *)
Definition prepared : Type := option (value * list estacionamiento * string).

Definition prepare (input : value) : result prepared :=
  data ← get input "data";
  instancias ← get data "instancias";
  if no_instancias instancias then Ok (None : prepared) else
  ests ← estacionamientos instancias;
  total ← get data "total";
  totalFull ← get data "totalFull";
  prompt ← build_prompt total totalFull ests;
  Ok (Some (total, ests, prompt) : prepared).

(** [handler: async ({ data }) => ...], with the calls made to the
    completion service. *)
Definition handler : handler_type := λ w input,
  match prepare input with
  | Throw e => ([], Throw e)
  | Ok None => ([], Ok no_encontrados)
  | Ok (Some (total, ests, prompt)) =>
      ([chat_request_of prompt],
       Ok match try_block w total ests prompt with
          | Ok r => r
          | Throw e => catch_block w e
          end)
  end.

Definition tools : list (string * handler_type) :=
  [("analizar-estacionamiento", handler)].

Definition ejemplo : JSON :=
  JObj [("input", JObj [("data", JObj [("instancias", JArr []);
                                        ("total", JNum 0);
                                        ("totalFull", JNum 0)])])].

(** [app.post("/mcp-tool/:toolName", ...)] over a registry. *)
Definition post_mcp_tool (tools : list (string * handler_type)) (w : world)
    (toolName : string) (body : JSON) : list event * http_outcome :=
  match get (Some body) "input" with
  | Throw e => ([], Unhandled e)
  | Ok input =>
      if lacks_data input then
        ([], Respond 400 (JObj [
           ("error", JStr "Formato incorrecto. Se espera { input: { data: {...} } }");
           ("ejemplo", ejemplo)]))
      else
        match tools_get tools toolName with
        | None =>
            ([], Respond 404 (JObj [
               ("error", JStr "Herramienta no encontrada");
               ("herramientasDisponibles", JArr (JStr <$> tools_keys tools))]))
        | Some h =>
            let '(calls, r) := h w input in
            (HandlerInvoked toolName :: (CompletionCall <$> calls),
             match r with
             | Ok result =>
                 Respond 200 (JObj (("success", JBool true) :: props_of_result result))
             | Throw err =>
                 Respond 500 (JObj (
                   [("error", JStr "Error interno al procesar la solicitud");
                    ("detalle", JStr (message w err))] ++
                   (if bool_decide (NODE_ENV w = Some "development")
                    then prop "stack" (stack w err) else [])))
             end)
        end
  end.

End McpServer.

(** ** [src/unnamed/part_000]: the server with the flat-field prompt *)

Module Part000.

(** [est.p || d] on an element of [data.instancias]. *)
Definition field (est : JSON) (p d : string) : result JSON :=
  v ← get (Some est) p;
  Ok (or_default v d).

(** The block of one parking place, [i] counted from 0. *)
Definition render_block (i : nat) (est : JSON) : result string :=
  nombre ← field est "nombre" "Sin nombre";
  s_nombre ← to_string nombre;
  domicilio ← field est "domicilio" "No especificada";
  s_domicilio ← to_string domicilio;
  tarifa ← field est "tarifa" "No especificada";
  s_tarifa ← to_string tarifa;
  capacidad ← field est "capacidad" "?";
  s_capacidad ← to_string capacidad;
  disponibles ← field est "disponibles" "?";
  s_disponibles ← to_string disponibles;
  Ok ("
" +:+ string_of_Z (Z.of_nat i + 1) +:+ ". " +:+ s_nombre +:+ "
- Dirección: " +:+ s_domicilio +:+ "
- Tarifa: " +:+ s_tarifa +:+ "
- Capacidad: " +:+ s_capacidad +:+ "
- Disponibles: " +:+ s_disponibles +:+ "
").

(** [data.instancias.map((est, i) => ...)] *)
Definition blocks (instancias : value) : result (list string) :=
  match instancias with
  | Some (JArr l) => mapiM_from 0 render_block l
  | None => Throw (TypeError (ReadOfUndefined "map"))
  | Some JNull => Throw (TypeError (ReadOfNull "map"))
  | Some _ => Throw (TypeError (NotAFunction "data.instancias.map"))
  end.

Definition build_prompt (total totalFull instancias : value) : result string :=
  s_total ← to_string_value total;
  s_totalFull ← to_string_value totalFull;
  bs ← blocks instancias;
  Ok ("Como experto en tránsito de CABA, analiza estos estacionamientos:
- Total encontrados: " +:+ s_total +:+ "
- Disponibles: " +:+ s_totalFull +:+ "

Detalles por estacionamiento:
" +:+ join_empty bs +:+ "

Responde con:
1. RESUMEN: 1 línea con disponibilidad general
2. RECOMENDACIÓN: Estacionamiento más conveniente
3. ADVERTENCIAS: Si hay restricciones importantes
4. DETALLES: Info adicional relevante
5. CALLES: direcciones de calles donde esta permitido o prohibido").

Definition chat_request_of (prompt : string) : chat_request :=
  {| model := "openai/gpt-3.5-turbo";
     system_content := "Eres un asistente especializado en movilidad urbana de Buenos Aires. Sé conciso pero útil.";
     user_content := prompt;
     temperature := (3, 10)%Z |}.

Definition no_encontrados : analysis_result :=
  {| content := [text_block "No se encontraron estacionamientos disponibles en la zona."];
     metadata := None;
     error := false |}.

Definition try_block (w : world) (prompt : string) : result analysis_result :=
  response ← completions_create w (chat_request_of prompt);
  analysis ← first_choice_content response;
  Ok {| content := [{| type := "text"; text := analysis |}];
        metadata := None;
        error := false |}.

Definition catch_block (w : world) (e : js_error) : analysis_result :=
  {| content := [text_block ("⚠️ Error al analizar: " +:+ message w e)];
     metadata := None;
     error := false |}.

(** Up to the call of the service: [None] is the early return. *)
Definition prepare (input : value) : result (option string) :=
  data ← get input "data";
  instancias ← get data "instancias";
  if no_instancias instancias then Ok (None : option string) else
  total ← get data "total";
  totalFull ← get data "totalFull";
  prompt ← build_prompt total totalFull instancias;
  Ok (Some prompt).

Definition handler : handler_type := λ w input,
  match prepare input with
  | Throw e => ([], Throw e)
  | Ok None => ([], Ok no_encontrados)
  | Ok (Some prompt) =>
      ([chat_request_of prompt],
       Ok match try_block w prompt with
          | Ok r => r
          | Throw e => catch_block w e
          end)
  end.

Definition tools : list (string * handler_type) :=
  [("analizar-estacionamiento", handler)].

Definition post_mcp_tool (tools : list (string * handler_type)) (w : world)
    (toolName : string) (body : JSON) : list event * http_outcome :=
  match get (Some body) "input" with
  | Throw e => ([], Unhandled e)
  | Ok input =>
      if lacks_data input then
        ([], Respond 400 (JObj [
           ("error", JStr "Formato incorrecto. Se espera { input: { data: {...} } }")]))
      else
        match tools_get tools toolName with
        | None =>
            ([], Respond 404 (JObj [
               ("error", JStr "Herramienta no encontrada");
               ("herramientasDisponibles", JArr (JStr <$> tools_keys tools))]))
        | Some h =>
            let '(calls, r) := h w input in
            (HandlerInvoked toolName :: (CompletionCall <$> calls),
             match r with
             | Ok result => Respond 200 (JObj (props_of_result result))
             | Throw err =>
                 Respond 500 (JObj [
                   ("error", JStr "Error interno al procesar la solicitud");
                   ("detalle", JStr (message w err))])
             end)
        end
  end.

End Part000.

(** ** Sample worlds and inputs *)

(** V8's wording of the engine's errors. *)
Definition v8_message (t : type_error) : string :=
  match t with
  | ReadOfUndefined p => "Cannot read properties of undefined (reading '" +:+ p +:+ "')"
  | ReadOfNull p => "Cannot read properties of null (reading '" +:+ p +:+ "')"
  | NotAFunction expr => expr +:+ " is not a function"
  | NoPrimitiveValue => "Cannot convert object to primitive value"
  end.

(** A world whose completion service cannot be reached. *)
Definition offline : world :=
  {| completions_create := λ _, Throw (ServiceError "Connection error.");
     engine_message := v8_message;
     stack := λ _, None;
     NODE_ENV := None |}.

(** A world whose completion service answers [s] to everything. *)
Definition answering (s : string) : world :=
  {| completions_create := λ _,
       Ok (JObj [("choices", JArr [JObj [("message",
             JObj [("role", JStr "assistant"); ("content", JStr s)])]])]);
     engine_message := v8_message;
     stack := λ _, None;
     NODE_ENV := None |}.

Definition attribute (nombreId valor : string) : JSON :=
  JObj [("nombreId", JStr nombreId); ("valor", JStr valor)].

(** The nested-variant instance of the end-to-end scenario. *)
Definition echague : JSON :=
  JObj [("contenido", JObj [("contenido", JArr [
           attribute "calle" "ECHAGUE, PEDRO";
           attribute "altura" "1301-1400";
           attribute "permiso" "PERMITIDO ESTACIONAR";
           attribute "horario" "24 HORAS";
           attribute "lado" "derecho"])]);
        ("distancia", JStr "4.85")].

(** The same location in the flat shape: its attributes as direct fields. *)
Definition echague_flat : JSON :=
  JObj [("calle", JStr "ECHAGUE, PEDRO");
        ("altura", JStr "1301-1400");
        ("permiso", JStr "PERMITIDO ESTACIONAR");
        ("horario", JStr "24 HORAS");
        ("lado", JStr "derecho");
        ("distancia", JStr "4.85")].

Definition query_result (instancias : list JSON) (total totalFull : Z) : JSON :=
  JObj [("instancias", JArr instancias); ("total", JNum total); ("totalFull", JNum totalFull)].

Definition request_body (data : JSON) : JSON := JObj [("input", JObj [("data", data)])].

(** A flat-variant instance, with the fields the flat prompt reads. *)
Definition garage : JSON :=
  JObj [("nombre", JStr "Garage Central");
        ("domicilio", JStr "Av. Corrientes 1234");
        ("tarifa", JStr "500 por hora");
        ("capacidad", JNum 50);
        ("disponibles", JNum 12)].

(** [needle] occurs in [s]. *)
Definition substring (needle s : string) : Prop :=
  ∃ pre post : string, s = pre +:+ needle +:+ post.

(** Does the instance hold an attribute array under
    [contenido.contenido]? *)
Definition has_attribute_array (est : JSON) : bool :=
  match est with
  | JObj props =>
      match assoc "contenido" props with
      | Some (JObj inner) =>
          match assoc "contenido" inner with
          | Some (JArr _) => true
          | _ => false
          end
      | _ => false
      end
  | _ => false
  end.

(** [item] is the pair [{nombreId: a.1, valor: a.2}] of the nested variant
    (further properties are allowed). *)
Definition encodes (item : JSON) (a : string * JSON) : Prop :=
  get (Some item) "nombreId" = Ok (Some (JStr a.1)) ∧
  get (Some item) "valor" = Ok (Some a.2).

(** The property key an item of the attribute array is stored under. *)
Definition item_key (item : JSON) : result string :=
  nombreId ← get (Some item) "nombreId";
  to_property_key nombreId.

(** The logical value of attribute [k] in a list of pairs, in the spec's
    words: the value of its final occurrence. *)
Fixpoint last_valor (k : string) (attrs : list (string * JSON)) : value :=
  match attrs with
  | [] => None
  | (k', v) :: r =>
      match last_valor k r with
      | Some x => Some x
      | None => if String.eqb k k' then Some v else None
      end
  end.

(** The one pair the accumulator does not store as a property: an object
    under the id [__proto__] becomes the accumulator's prototype. *)
Definition relinks_prototype (a : string * JSON) : bool :=
  String.eqb a.1 "__proto__" && match a.2 with JObj _ => true | _ => false end.

(** The prototype of the accumulator is not an object of the document. *)
Definition plain_prototype (o : js_object) : Prop :=
  ∀ props, proto o ≠ ValuePrototype (JObj props).

(** An exception-raising computation raises [TypeError]s only. *)
Definition throws_only_TypeError {A} (r : result A) : Prop :=
  ∀ e, r = Throw e → is_TypeError e = true.

(** ** The other routes *)

(** What [GET /health] reads from the running process. *)
Record process_info := {
  timestamp : string;   (* new Date().toISOString() *)
  uptime : JSON;        (* process.uptime() *)
  memoryUsage : JSON    (* process.memoryUsage() *)
}.

(** [app.get('/health', ...)] of [src/mcp-server.js] *)
Definition mcp_health (tools : list (string * handler_type)) (w : world)
    (p : process_info) : http_outcome :=
  Respond 200 (JObj (
    [("status", JStr "OK");
     ("tools", JArr (JStr <$> tools_keys tools));
     ("timestamp", JStr (timestamp p));
     ("uptime", uptime p);
     ("memoryUsage", memoryUsage p)] ++
    prop "env" (JStr <$> NODE_ENV w))).

(** [app.get('/health', ...)] of [src/unnamed/part_000] *)
Definition part000_health (tools : list (string * handler_type)) (p : process_info)
    : http_outcome :=
  Respond 200 (JObj [
    ("status", JStr "OK");
    ("tools", JArr (JStr <$> tools_keys tools));
    ("timestamp", JStr (timestamp p))]).

(** The request body shown by [app.get('/ejemplo', ...)]. *)
Definition ejemplo_body : JSON :=
  JObj [("input", JObj [("data", JObj [
    ("instancias", JArr [JObj [
       ("nombre", JStr "Permitido estacionar 24 horas");
       ("contenido", JObj [("contenido", JArr [
          JObj [("nombreId", JStr "calle"); ("valor", JStr "ECHAGUE, PEDRO")];
          JObj [("nombreId", JStr "altura"); ("valor", JStr "1301-1400")];
          JObj [("nombreId", JStr "permiso"); ("valor", JStr "PERMITIDO ESTACIONAR")];
          JObj [("nombreId", JStr "horario"); ("valor", JStr "24 HORAS")];
          JObj [("nombreId", JStr "lado"); ("valor", JStr "derecho")]])]);
       ("distancia", JStr "4.85")]]);
    ("total", JNum 1);
    ("totalFull", JNum 1)])])].

(** [app.get('/ejemplo', ...)] *)
Definition get_ejemplo : http_outcome :=
  Respond 200 (JObj [
    ("description", JStr "Ejemplo de estructura esperada");
    ("request", JObj [
       ("method", JStr "POST");
       ("url", JStr "/mcp-tool/analizar-estacionamiento");
       ("body", ejemplo_body)])]).

(** ** Vocabulary of the further properties *)

(** The falsy values a JSON document can hold, and [undefined]. *)
Definition falsy (v : value) : Prop :=
  v = None ∨ v = Some JNull ∨ v = Some (JBool false) ∨ v = Some (JNum 0) ∨ v = Some (JStr "").

(** The status of an answer. *)
Definition status_of (o : http_outcome) : option Z :=
  match o with Respond st _ => Some st | Unhandled _ => None end.

Definition is_invocation (ev : event) : bool :=
  match ev with HandlerInvoked _ => true | CompletionCall _ => false end.

Definition is_completion (ev : event) : bool :=
  match ev with CompletionCall _ => true | HandlerInvoked _ => false end.

(** Is [includes] callable on the [permiso] of a record? On [undefined]
    and [null] the optional call is skipped; strings and arrays have the
    method. *)
Definition permiso_has_includes (e : McpServer.estacionamiento) : bool :=
  match acc_get (McpServer.detalles e) "permiso" with
  | None | Some JNull | Some (JStr _) | Some (JArr _) => true
  | Some _ => false
  end.

(** Does the [permiso] text of a record mention [needle]? *)
Definition permiso_mentions (needle : string) (e : McpServer.estacionamiento) : bool :=
  match acc_get (McpServer.detalles e) "permiso" with
  | Some (JStr s) => includes needle s
  | Some (JArr elts) =>
      existsb (λ x, match x with JStr s => String.eqb s needle | _ => false end) elts
  | _ => false
  end.

(** The lines of the prompt of [src/mcp-server.js] around the counts and
    the blocks. *)
Definition mcp_prompt (s_total s_totalFull : string) (blocks : list string) : string :=
  "Como experto en tránsito de CABA, analiza estos estacionamientos en formato claro y estructurado:

**Datos generales:**
- Total encontrados: " +:+ s_total +:+ "
- Disponibles para estacionar: " +:+ s_totalFull +:+ "

**Detalle por ubicación:**
" +:+ join_empty blocks +:+ "

**Formato requerido para la respuesta:**
1. 🅿️ RESUMEN: Breve resumen de disponibilidad
2. ✅ UBICACIONES PERMITIDAS: Lista clara de calles y horarios donde se puede estacionar
3. 🚫 RESTRICCIONES: Zonas prohibidas o con limitaciones
4. 💡 RECOMENDACIÓN: Mejor opción basada en distancia y disponibilidad
5. 📌 OBSERVACIONES: Cualquier dato adicional relevante

**Sé conciso pero preciso, usando emojis para mejor legibilidad.**".

(** The block of one location, from the texts of its fields. *)
Definition mcp_block (i : nat) (s_calle s_altura s_lado s_permiso s_horario s_distancia : string)
    : string :=
  "
📍 " +:+ string_of_Z (Z.of_nat i + 1) +:+ ". " +:+ s_calle +:+ " " +:+ s_altura +:+ " (" +:+ s_lado +:+ ")
- Tipo: " +:+ s_permiso +:+ "
- Horario: " +:+ s_horario +:+ "
- Distancia: " +:+ s_distancia +:+ " metros
".

(** The tool names an answer of [/health] lists. *)
Definition listed_tools (o : http_outcome) : list JSON :=
  match o with
  | Respond _ (JObj props) =>
      match assoc "tools" props with
      | Some (JArr names) => names
      | _ => []
      end
  | _ => []
  end.

(** The block of [src/unnamed/part_000] for an instance that supplies none
    of the five fields. *)
Definition part000_default_block (i : nat) : string :=
  "
" +:+ string_of_Z (Z.of_nat i + 1) +:+ ". Sin nombre
- Dirección: No especificada
- Tarifa: No especificada
- Capacidad: ?
- Disponibles: ?
".

(** An element of [instancias] that is not [null] and supplies none of
    the five fields the flat prompt reads. *)
Definition supplies_no_flat_field (est : JSON) : Prop :=
  get (Some est) "nombre" = Ok None ∧
  get (Some est) "domicilio" = Ok None ∧
  get (Some est) "tarifa" = Ok None ∧
  get (Some est) "capacidad" = Ok None ∧
  get (Some est) "disponibles" = Ok None.

(** A pair that changes the prototype of the accumulator: [__proto__] with
    an object, an array or [null]. Any other pair leaves the prototype at
    [Object.prototype]. *)
Definition changes_prototype (a : string * JSON) : bool :=
  String.eqb a.1 "__proto__" &&
  match a.2 with JObj _ | JArr _ | JNull => true | _ => false end.

(** * Properties *)

Ltac no_call :=
  simpl; let H := fresh in intros H; apply elem_of_nil in H; contradiction.

Lemma bind_Ok {A B} (a : A) (k : A → result B) : (x ← Ok a; k x) = k a.
Proof. reflexivity. Qed.

Lemma get_Some_truthy (j : JSON) (p : string) (v : JSON) :
  get (Some j) p = Ok (Some v) → truthy (Some j) = true.
Proof. destruct j; simpl; intros H; try discriminate; reflexivity. Qed.

Lemma lacks_data_false (input data : JSON) :
  get (Some input) "data" = Ok (Some data) → truthy (Some data) = true →
  lacks_data (Some input) = false.
Proof.
  intros Hd Ht. unfold lacks_data.
  rewrite (get_Some_truthy _ _ _ Hd), Hd, Ht. reflexivity.
Qed.

(** C2. Whenever [instancias] is absent, [null] or the empty array, both handlers
    return their fixed "no se encontraron estacionamientos" text block and
    the completion service is not called; through the route this is a 200
    answer whose trace holds no completion call. *)
Theorem no_instancias_short_circuit (w : world) (body input data : JSON) :
  get (Some body) "input" = Ok (Some input) →
  get (Some input) "data" = Ok (Some data) →
  truthy (Some data) = true →
  get (Some data) "instancias" = Ok None ∨
    get (Some data) "instancias" = Ok (Some JNull) ∨
    get (Some data) "instancias" = Ok (Some (JArr [])) →
  McpServer.handler w (Some input) = ([], Ok McpServer.no_encontrados) ∧
  Part000.handler w (Some input) = ([], Ok Part000.no_encontrados) ∧
  McpServer.post_mcp_tool McpServer.tools w "analizar-estacionamiento" body =
    ([HandlerInvoked "analizar-estacionamiento"],
     Respond 200 (JObj [
       ("success", JBool true);
       ("content", JArr [JObj [
          ("type", JStr "text");
          ("text", JStr "🚫 No se encontraron estacionamientos disponibles en la zona.")]])])) ∧
  Part000.post_mcp_tool Part000.tools w "analizar-estacionamiento" body =
    ([HandlerInvoked "analizar-estacionamiento"],
     Respond 200 (JObj [
       ("content", JArr [JObj [
          ("type", JStr "text");
          ("text", JStr "No se encontraron estacionamientos disponibles en la zona.")]])])).
Proof.
  intros Hbody Hinput Hdata Hinst.
  assert (Hguard : ∃ v, get (Some data) "instancias" = Ok v ∧ no_instancias v = true).
  { destruct Hinst as [H | [H | H]]; eexists; (split; [exact H | reflexivity]). }
  destruct Hguard as (v & Hv & Hno).
  assert (H1 : McpServer.handler w (Some input) = ([], Ok McpServer.no_encontrados)).
  { unfold McpServer.handler, McpServer.prepare.
    rewrite Hinput, bind_Ok, Hv, bind_Ok, Hno. reflexivity. }
  assert (H2 : Part000.handler w (Some input) = ([], Ok Part000.no_encontrados)).
  { unfold Part000.handler, Part000.prepare.
    rewrite Hinput, bind_Ok, Hv, bind_Ok, Hno. reflexivity. }
  repeat split; [exact H1 | exact H2 | |].
  - unfold McpServer.post_mcp_tool.
    rewrite Hbody, (lacks_data_false _ _ Hinput Hdata). simpl. rewrite H1. reflexivity.
  - unfold Part000.post_mcp_tool.
    rewrite Hbody, (lacks_data_false _ _ Hinput Hdata). simpl. rewrite H2. reflexivity.
Qed.

Lemma no_instancias_short_circuit_witness :
  McpServer.handler offline (Some (JObj [("data", query_result [] 0 0)]))
    = ([], Ok McpServer.no_encontrados).
Proof.
  apply (no_instancias_short_circuit offline
           (request_body (query_result [] 0 0))
           (JObj [("data", query_result [] 0 0)])
           (query_result [] 0 0));
    [reflexivity | reflexivity | reflexivity | right; right; reflexivity].
Defined.

(** C5. A body whose [input] is absent, or whose [input] has no [data],
    is answered 400 by both servers whatever the tool name and the
    registry, and the trace is empty: no handler was invoked. *)
Theorem missing_data_is_400 (tools : list (string * handler_type)) (w : world)
    (toolName : string) (body : JSON) :
  get (Some body) "input" = Ok None ∨
    (∃ input, get (Some body) "input" = Ok (Some input) ∧
              get (Some input) "data" = Ok None) →
  McpServer.post_mcp_tool tools w toolName body =
    ([], Respond 400 (JObj [
       ("error", JStr "Formato incorrecto. Se espera { input: { data: {...} } }");
       ("ejemplo", McpServer.ejemplo)])) ∧
  Part000.post_mcp_tool tools w toolName body =
    ([], Respond 400 (JObj [
       ("error", JStr "Formato incorrecto. Se espera { input: { data: {...} } }")])).
Proof.
  intros [Hin | (input & Hin & Hdata)];
    unfold McpServer.post_mcp_tool, Part000.post_mcp_tool; rewrite Hin.
  - split; reflexivity.
  - assert (Hl : lacks_data (Some input) = true).
    { unfold lacks_data. rewrite Hdata. apply orb_true_r. }
    rewrite Hl. split; reflexivity.
Qed.

Lemma missing_data_is_400_witness :
  McpServer.post_mcp_tool McpServer.tools offline "analizar-estacionamiento" (JObj []) =
    ([], Respond 400 (JObj [
       ("error", JStr "Formato incorrecto. Se espera { input: { data: {...} } }");
       ("ejemplo", McpServer.ejemplo)])) ∧
  Part000.post_mcp_tool Part000.tools offline "analizar-estacionamiento"
      (JObj [("input", JObj [])]) =
    ([], Respond 400 (JObj [
       ("error", JStr "Formato incorrecto. Se espera { input: { data: {...} } }")])).
Proof.
  split.
  - apply (missing_data_is_400 McpServer.tools offline "analizar-estacionamiento" (JObj [])).
    left. reflexivity.
  - apply (missing_data_is_400 Part000.tools offline "analizar-estacionamiento"
             (JObj [("input", JObj [])])).
    right. exists (JObj []). split; reflexivity.
Defined.

(** C4, as stated, fails: the payload guard runs before the registry
    lookup, so an unknown tool name sent with a body that has no [input] is
    answered 400, not 404. *)
Lemma unknown_tool_without_data_is_400 :
  tools_get McpServer.tools "unknown-tool" = None ∧
  ¬ (∃ names, snd (McpServer.post_mcp_tool McpServer.tools offline "unknown-tool" (JObj []))
              = Respond 404 names) ∧
  (∃ b, snd (McpServer.post_mcp_tool McpServer.tools offline "unknown-tool" (JObj []))
        = Respond 400 b) ∧
  (∃ b, snd (Part000.post_mcp_tool Part000.tools offline "unknown-tool" (JObj []))
        = Respond 400 b).
Proof.
  split; [reflexivity |].
  split; [intros [names H]; discriminate H |].
  split; eexists; reflexivity.
Qed.

(** C4, amended. When the body carries a truthy [input.data], a tool name
    absent from the registry is answered 404 by both servers, with the
    registered names in registration order, and no handler is invoked. *)
Theorem unknown_tool_is_404 (tools : list (string * handler_type)) (w : world)
    (toolName : string) (body : JSON) (input : value) :
  get (Some body) "input" = Ok input →
  lacks_data input = false →
  tools_get tools toolName = None →
  McpServer.post_mcp_tool tools w toolName body =
    ([], Respond 404 (JObj [
       ("error", JStr "Herramienta no encontrada");
       ("herramientasDisponibles", JArr (JStr <$> tools_keys tools))])) ∧
  Part000.post_mcp_tool tools w toolName body =
    ([], Respond 404 (JObj [
       ("error", JStr "Herramienta no encontrada");
       ("herramientasDisponibles", JArr (JStr <$> tools_keys tools))])).
Proof.
  intros Hin Hdata Hnone.
  unfold McpServer.post_mcp_tool, Part000.post_mcp_tool.
  rewrite Hin, Hdata, Hnone. split; reflexivity.
Qed.

Lemma unknown_tool_is_404_witness :
  McpServer.post_mcp_tool McpServer.tools offline "unknown-tool"
      (request_body (query_result [echague] 1 1)) =
    ([], Respond 404 (JObj [
       ("error", JStr "Herramienta no encontrada");
       ("herramientasDisponibles", JArr [JStr "analizar-estacionamiento"])])).
Proof.
  apply (unknown_tool_is_404 McpServer.tools offline "unknown-tool"
           (request_body (query_result [echague] 1 1))
           (Some (JObj [("data", query_result [echague] 1 1)])));
    reflexivity.
Defined.

(** The registry lookup agrees with membership of the name list. *)
Lemma tools_get_None (tools : list (string * handler_type)) (name : string) :
  tools_get tools name = None ↔ name ∉ tools_keys tools.
Proof.
  unfold tools_keys. induction tools as [| [n h] r IH]; simpl.
  - split; [intros _; apply not_elem_of_nil | reflexivity].
  - rewrite not_elem_of_cons. destruct (String.eqb_spec name n) as [-> | Hne].
    + split; [discriminate | intros [H _]; contradiction].
    + rewrite IH. tauto.
Qed.

(** The scenario end to end, the service answering: the analysis is
    returned with the counts of permitted and prohibited places. *)
Example echague_analysis :
  snd (McpServer.post_mcp_tool McpServer.tools (answering "Hay un lugar disponible.")
         "analizar-estacionamiento" (request_body (query_result [echague] 1 1))) =
    Respond 200 (JObj [
      ("success", JBool true);
      ("content", JArr [JObj [("type", JStr "text");
                              ("text", JStr "Hay un lugar disponible.")]]);
      ("metadata", JObj [("totalEstacionamientos", JNum 1);
                         ("estacionamientosPermitidos", JNum 1);
                         ("estacionamientosProhibidos", JNum 0)])]).
Proof. vm_compute. reflexivity. Qed.

(** In [src/mcp-server.js] a failing completion call is caught: the handler
    returns the error-flagged result whose only block embeds
    [error.message], and the route answers 200 with [success] and [error]
    both set. *)
Lemma completion_failure_is_flagged (w : world) (body input : JSON) (total : value)
    (ests : list McpServer.estacionamiento) (prompt : string) (e : js_error) :
  get (Some body) "input" = Ok (Some input) →
  lacks_data (Some input) = false →
  McpServer.prepare (Some input) = Ok (Some (total, ests, prompt)) →
  completions_create w (McpServer.chat_request_of prompt) = Throw e →
  McpServer.handler w (Some input) =
    ([McpServer.chat_request_of prompt],
     Ok {| content := [text_block ("⚠️ Error al analizar los estacionamientos: " +:+ message w e)];
           metadata := None;
           error := true |}) ∧
  McpServer.post_mcp_tool McpServer.tools w "analizar-estacionamiento" body =
    ([HandlerInvoked "analizar-estacionamiento";
      CompletionCall (McpServer.chat_request_of prompt)],
     Respond 200 (JObj [
       ("success", JBool true);
       ("content", JArr [JObj [
          ("type", JStr "text");
          ("text", JStr ("⚠️ Error al analizar los estacionamientos: " +:+ message w e))]]);
       ("error", JBool true)])).
Proof.
  intros Hbody Hdata Hprep Hfail.
  assert (H : McpServer.handler w (Some input) =
    ([McpServer.chat_request_of prompt], Ok (McpServer.catch_block w e))).
  { unfold McpServer.handler. rewrite Hprep.
    unfold McpServer.try_block. rewrite Hfail. reflexivity. }
  split; [exact H |].
  unfold McpServer.post_mcp_tool. rewrite Hbody, Hdata. simpl. rewrite H. reflexivity.
Qed.

(** C3: the catch block of [src/unnamed/part_000] catches the failure and
    embeds [error.message] in the text block, but never sets the error
    flag: the result, and the 200 answer built from it, have no [error]
    property. Evaluated on one flat instance with the service unreachable. *)
Theorem part000_failure_is_not_flagged :
  (∀ (w : world) (e : js_error),
     error (Part000.catch_block w e) = false ∧
     assoc "error" (props_of_result (Part000.catch_block w e)) = None) ∧
  (∃ prompt,
     Part000.handler offline (Some (JObj [("data", query_result [garage] 1 1)])) =
       ([Part000.chat_request_of prompt],
        Ok {| content := [text_block "⚠️ Error al analizar: Connection error."];
              metadata := None;
              error := false |}) ∧
     Part000.post_mcp_tool Part000.tools offline "analizar-estacionamiento"
         (request_body (query_result [garage] 1 1)) =
       ([HandlerInvoked "analizar-estacionamiento";
         CompletionCall (Part000.chat_request_of prompt)],
        Respond 200 (JObj [
          ("content", JArr [JObj [
             ("type", JStr "text");
             ("text", JStr "⚠️ Error al analizar: Connection error.")]])]))).
Proof.
  split.
  - intros w e. split; reflexivity.
  - eexists. split; vm_compute; reflexivity.
Qed.

(** [includes] finds exactly the occurrences. *)
Lemma prefix_true (n s : string) :
  String.prefix n s = true → ∃ post, s = n +:+ post.
Proof.
  revert s. induction n as [| c n IH]; intros s H.
  - exists s. reflexivity.
  - destruct s as [| d s]; [discriminate |].
    cbn [String.prefix] in H.
    destruct (Ascii.ascii_dec c d) as [-> | Hne]; [| discriminate].
    destruct (IH s H) as [post ->]. exists post. reflexivity.
Qed.

Lemma includes_substring (n s : string) : includes n s = true → substring n s.
Proof.
  induction s as [| c s IH]; cbn [includes]; intros H.
  - rewrite orb_false_r in H. destruct (prefix_true _ _ H) as [post Hp].
    exists "", post. exact Hp.
  - apply orb_true_iff in H as [H | H].
    + destruct (prefix_true _ _ H) as [post Hp]. exists "", post. exact Hp.
    + destruct (IH H) as (pre & post & ->). exists (String c pre), post. reflexivity.
Qed.

(** C7. For the end-to-end scenario the handler builds a prompt, sends it
    as the user message whatever the world, and the prompt contains the six
    literal substrings. *)
Theorem echague_prompt_contains_fields :
  ∃ total ests prompt,
    McpServer.prepare (Some (JObj [("data", query_result [echague] 1 1)]))
      = Ok (Some (total, ests, prompt)) ∧
    (∀ w, fst (McpServer.handler w (Some (JObj [("data", query_result [echague] 1 1)])))
          = [McpServer.chat_request_of prompt]) ∧
    substring "ECHAGUE, PEDRO" prompt ∧
    substring "1301-1400" prompt ∧
    substring "PERMITIDO ESTACIONAR" prompt ∧
    substring "24 HORAS" prompt ∧
    substring "derecho" prompt ∧
    substring "4.85" prompt.
Proof.
  do 3 eexists. split; [vm_compute; reflexivity |].
  split; [intros w; reflexivity |].
  repeat split; apply includes_substring; vm_compute; reflexivity.
Qed.

(** C8. The prompt is a function of the request alone: two runs of a
    handler on the same input, in any two worlds, make the same calls with
    byte-identical prompts, and that prompt is the rendering [build_prompt]
    of the counts and the records (normalized in [src/mcp-server.js], as
    received in [src/unnamed/part_000]). *)
Theorem prompt_is_deterministic (w1 w2 : world) (input : value) :
  fst (McpServer.handler w1 input) = fst (McpServer.handler w2 input) ∧
  fst (Part000.handler w1 input) = fst (Part000.handler w2 input) ∧
  (∀ req, req ∈ fst (McpServer.handler w1 input) →
     ∃ data instancias total totalFull ests,
       get input "data" = Ok data ∧
       get data "instancias" = Ok instancias ∧
       get data "total" = Ok total ∧
       get data "totalFull" = Ok totalFull ∧
       McpServer.estacionamientos instancias = Ok ests ∧
       McpServer.build_prompt total totalFull ests = Ok (user_content req)) ∧
  (∀ req, req ∈ fst (Part000.handler w1 input) →
     ∃ data instancias total totalFull,
       get input "data" = Ok data ∧
       get data "instancias" = Ok instancias ∧
       get data "total" = Ok total ∧
       get data "totalFull" = Ok totalFull ∧
       Part000.build_prompt total totalFull instancias = Ok (user_content req)).
Proof.
  split; [| split; [| split]].
  - unfold McpServer.handler.
    destruct (McpServer.prepare input) as [[[[total ests] prompt] |] | e]; reflexivity.
  - unfold Part000.handler.
    destruct (Part000.prepare input) as [[prompt |] | e]; reflexivity.
  - intros req. unfold McpServer.handler, McpServer.prepare.
    destruct (get input "data") as [data | e] eqn:Hd; [| no_call].
    rewrite bind_Ok.
    destruct (get data "instancias") as [instancias | e] eqn:Hi; [| no_call].
    rewrite bind_Ok.
    destruct (no_instancias instancias); [no_call |].
    destruct (McpServer.estacionamientos instancias) as [ests | e] eqn:He; [| no_call].
    rewrite bind_Ok.
    destruct (get data "total") as [total | e] eqn:Ht; [| no_call].
    rewrite bind_Ok.
    destruct (get data "totalFull") as [totalFull | e] eqn:Hf; [| no_call].
    rewrite bind_Ok.
    destruct (McpServer.build_prompt total totalFull ests) as [prompt | e] eqn:Hp;
      [| no_call].
    rewrite bind_Ok. simpl. intros H. apply list_elem_of_singleton in H. subst req.
    exists data, instancias, total, totalFull, ests. auto 10.
  - intros req. unfold Part000.handler, Part000.prepare.
    destruct (get input "data") as [data | e] eqn:Hd; [| no_call].
    rewrite bind_Ok.
    destruct (get data "instancias") as [instancias | e] eqn:Hi; [| no_call].
    rewrite bind_Ok.
    destruct (no_instancias instancias); [no_call |].
    destruct (get data "total") as [total | e] eqn:Ht; [| no_call].
    rewrite bind_Ok.
    destruct (get data "totalFull") as [totalFull | e] eqn:Hf; [| no_call].
    rewrite bind_Ok.
    destruct (Part000.build_prompt total totalFull instancias) as [prompt | e] eqn:Hp;
      [| no_call].
    rewrite bind_Ok. simpl. intros H. apply list_elem_of_singleton in H. subst req.
    exists data, instancias, total, totalFull. auto 10.
Qed.

(** ** Exceptions of the normalizer are [TypeError]s *)

Lemma JSON_nested_ind (P : JSON → Prop) :
  P JNull → (∀ b, P (JBool b)) → (∀ n, P (JNum n)) → (∀ s, P (JStr s)) →
  (∀ elts, Forall P elts → P (JArr elts)) →
  (∀ props, Forall (λ kv, P kv.2) props → P (JObj props)) →
  ∀ j, P j.
Proof.
  intros Hnull Hbool Hnum Hstr Harr Hobj.
  fix IH 1. intros [| b | n | s | elts | props].
  - exact Hnull.
  - apply Hbool.
  - apply Hnum.
  - apply Hstr.
  - apply Harr. induction elts as [| x r IHr]; constructor; [apply IH | exact IHr].
  - apply Hobj. induction props as [| [k v] r IHr]; constructor; [apply IH | exact IHr].
Qed.

Lemma only_TypeError_Ok {A} (a : A) : throws_only_TypeError (Ok a).
Proof. intros e H. discriminate H. Qed.

Lemma only_TypeError_Throw {A} (t : type_error) :
  throws_only_TypeError (Throw (TypeError t) : result A).
Proof. intros e H. injection H as <-. reflexivity. Qed.

Lemma only_TypeError_bind {A B} (r : result A) (k : A → result B) :
  throws_only_TypeError r → (∀ a, throws_only_TypeError (k a)) →
  throws_only_TypeError (x ← r; k x).
Proof.
  intros Hr Hk e. destruct r as [a | e']; simpl.
  - apply Hk.
  - intros H. injection H as <-. apply Hr. reflexivity.
Qed.

Lemma only_TypeError_get (v : value) (p : string) : throws_only_TypeError (get v p).
Proof.
  destruct v as [[| | | | |] |]; simpl;
    first [apply only_TypeError_Ok | apply only_TypeError_Throw].
Qed.

Lemma only_TypeError_to_string (j : JSON) : throws_only_TypeError (to_string j).
Proof.
  induction j as [| [|] | n | s | elts IH | props _] using JSON_nested_ind;
    try apply only_TypeError_Ok.
  - simpl. induction IH as [| x r Hx _ IHr]; [apply only_TypeError_Ok |].
    apply only_TypeError_bind.
    + destruct x; first [apply only_TypeError_Ok | exact Hx].
    + intros s. destruct r as [| y r']; [apply only_TypeError_Ok |].
      apply only_TypeError_bind; [exact IHr | intros t; apply only_TypeError_Ok].
  - simpl. destruct (has_key "toString" props);
      [apply only_TypeError_Throw | apply only_TypeError_Ok].
Qed.

Lemma only_TypeError_to_string_value (v : value) :
  throws_only_TypeError (to_string_value v).
Proof. destruct v; [apply only_TypeError_to_string | apply only_TypeError_Ok]. Qed.

Lemma only_TypeError_reduce {A B} (f : B → A → result B) (l : list A) (acc : B) :
  (∀ acc x, throws_only_TypeError (f acc x)) → throws_only_TypeError (reduce f l acc).
Proof.
  intros Hf. revert acc. induction l as [| x r IH]; intros acc; simpl.
  - apply only_TypeError_Ok.
  - apply only_TypeError_bind; [apply Hf | exact IH].
Qed.

Lemma only_TypeError_mapM {A B} (f : A → result B) (l : list A) :
  (∀ x, throws_only_TypeError (f x)) → throws_only_TypeError (mapM f l).
Proof.
  intros Hf. induction l as [| x r IH]; simpl.
  - apply only_TypeError_Ok.
  - apply only_TypeError_bind; [apply Hf |].
    intros y. apply only_TypeError_bind; [exact IH | intros ys; apply only_TypeError_Ok].
Qed.

Lemma only_TypeError_fold_item (acc : js_object) (item : JSON) :
  throws_only_TypeError (McpServer.fold_item acc item).
Proof.
  unfold McpServer.fold_item.
  apply only_TypeError_bind; [apply only_TypeError_get | intros nombreId].
  apply only_TypeError_bind; [apply only_TypeError_get | intros valor].
  apply only_TypeError_bind; [apply only_TypeError_to_string_value | intros key].
  apply only_TypeError_Ok.
Qed.

Lemma only_TypeError_normalize (est : JSON) : throws_only_TypeError (McpServer.normalize est).
Proof.
  unfold McpServer.normalize, McpServer.contenido_reduce.
  apply only_TypeError_bind; [| intros acc; apply only_TypeError_Ok].
  apply only_TypeError_bind; [apply only_TypeError_get | intros contenido].
  apply only_TypeError_bind; [apply only_TypeError_get | intros items].
  destruct items as [[| | | | l |] |]; try apply only_TypeError_Throw.
  apply only_TypeError_reduce, only_TypeError_fold_item.
Qed.

Lemma is_TypeError_inv (e : js_error) : is_TypeError e = true → ∃ t, e = TypeError t.
Proof. destruct e as [t | m]; [exists t; reflexivity | discriminate]. Qed.

(** Without an attribute array the normalizer throws. *)
Lemma normalize_without_attribute_array (est : JSON) :
  has_attribute_array est = false → ∃ t, McpServer.normalize est = Throw (TypeError t).
Proof.
  intros Hno.
  assert (H : ∃ e, McpServer.normalize est = Throw e).
  { unfold McpServer.normalize, McpServer.contenido_reduce.
    destruct est as [| b | n | s | elts | props]; simpl; eauto.
    simpl in Hno. destruct (assoc "contenido" props) as [[| b | n | s | elts | inner] |];
      simpl; eauto.
    destruct (assoc "contenido" inner) as [[| b | n | s | elts | p] |]; simpl; eauto.
    discriminate Hno. }
  destruct H as [e He].
  destruct (is_TypeError_inv e (only_TypeError_normalize est e He)) as [t ->]. eauto.
Qed.

Lemma mapM_throws {A B} (f : A → result B) (l : list A) (x : A) :
  x ∈ l → (∃ e, f x = Throw e) → ∃ e, mapM f l = Throw e.
Proof.
  intros Hin [e He]. induction Hin as [x r | x y r Hin IH].
  - exists e. simpl. rewrite He. reflexivity.
  - destruct (IH He) as [e' He']. simpl. rewrite He'.
    destruct (f y); eexists; reflexivity.
Qed.

(** C9. If some instance of a non-empty [instancias] array has no
    attribute array under [contenido.contenido], the normalizer of
    [src/mcp-server.js] throws a [TypeError] (no defaults are applied, no
    prompt is built, the completion service is not called) and the route
    answers 500 with the engine's message as [detalle]. *)
Theorem missing_attribute_array_is_500 (w : world) (body input data : JSON)
    (l : list JSON) (est : JSON) :
  get (Some body) "input" = Ok (Some input) →
  get (Some input) "data" = Ok (Some data) →
  get (Some data) "instancias" = Ok (Some (JArr l)) →
  est ∈ l →
  has_attribute_array est = false →
  ∃ t,
    McpServer.estacionamientos (Some (JArr l)) = Throw (TypeError t) ∧
    McpServer.handler w (Some input) = ([], Throw (TypeError t)) ∧
    McpServer.post_mcp_tool McpServer.tools w "analizar-estacionamiento" body =
      ([HandlerInvoked "analizar-estacionamiento"],
       Respond 500 (JObj (
         [("error", JStr "Error interno al procesar la solicitud");
          ("detalle", JStr (engine_message w t))] ++
         (if bool_decide (NODE_ENV w = Some "development")
          then prop "stack" (stack w (TypeError t)) else [])))).
Proof.
  intros Hbody Hinput Hinst Hin Hno.
  assert (Hthrow : ∃ t, McpServer.estacionamientos (Some (JArr l)) = Throw (TypeError t)).
  { destruct (mapM_throws McpServer.normalize l est Hin) as [e He].
    - destruct (normalize_without_attribute_array est Hno) as [t Ht]. eauto.
    - destruct (is_TypeError_inv e) as [t ->]; [| exists t; exact He].
      apply (only_TypeError_mapM McpServer.normalize l only_TypeError_normalize e He). }
  destruct Hthrow as [t Ht]. exists t.
  assert (Hguard : no_instancias (Some (JArr l)) = false).
  { destruct l; [apply elem_of_nil in Hin; contradiction | reflexivity]. }
  assert (Hh : McpServer.handler w (Some input) = ([], Throw (TypeError t))).
  { unfold McpServer.handler, McpServer.prepare.
    rewrite Hinput, bind_Ok, Hinst, bind_Ok, Hguard, Ht. reflexivity. }
  split; [exact Ht | split; [exact Hh |]].
  unfold McpServer.post_mcp_tool.
  rewrite Hbody, (lacks_data_false _ _ Hinput (get_Some_truthy _ _ _ Hinst)).
  simpl. rewrite Hh. reflexivity.
Qed.

Lemma missing_attribute_array_is_500_witness :
  ∃ t,
    McpServer.estacionamientos (Some (JArr [echague; echague_flat])) = Throw (TypeError t) ∧
    McpServer.handler offline (Some (JObj [("data", query_result [echague; echague_flat] 2 2)]))
      = ([], Throw (TypeError t)) ∧
    McpServer.post_mcp_tool McpServer.tools offline "analizar-estacionamiento"
        (request_body (query_result [echague; echague_flat] 2 2)) =
      ([HandlerInvoked "analizar-estacionamiento"],
       Respond 500 (JObj (
         [("error", JStr "Error interno al procesar la solicitud");
          ("detalle", JStr (engine_message offline t))] ++
         (if bool_decide (NODE_ENV offline = Some "development")
          then prop "stack" (stack offline (TypeError t)) else [])))).
Proof.
  apply (missing_attribute_array_is_500 offline
           (request_body (query_result [echague; echague_flat] 2 2))
           (JObj [("data", query_result [echague; echague_flat] 2 2)])
           (query_result [echague; echague_flat] 2 2)
           [echague; echague_flat] echague_flat);
    [reflexivity | reflexivity | reflexivity | | reflexivity].
  right. left.
Defined.

(** ** The fold of the attribute array *)

Lemma set_prop_ordinary (o : js_object) (k : string) (v : value) :
  k ≠ "__proto__" → set_prop o k v = {| own := <[k := v]> (own o); proto := proto o |}.
Proof.
  intros Hk. unfold set_prop. destruct (own o !! k); [reflexivity |].
  apply String.eqb_neq in Hk. rewrite Hk. reflexivity.
Qed.

Lemma set_prop_own_other (o : js_object) (k k' : string) (v : value) :
  k ≠ k' → own (set_prop o k v) !! k' = own o !! k'.
Proof.
  intros Hne. unfold set_prop.
  destruct (own o !! k); [apply lookup_insert_ne, Hne |].
  destruct (String.eqb k "__proto__" && inherits_proto_setter (proto o)).
  - destruct v as [[| | | | |] |]; reflexivity.
  - apply lookup_insert_ne, Hne.
Qed.

Lemma fold_item_inv (acc acc' : js_object) (item : JSON) :
  McpServer.fold_item acc item = Ok acc' →
  ∃ key valor, item_key item = Ok key ∧ acc' = set_prop acc key valor.
Proof.
  unfold McpServer.fold_item, item_key.
  destruct (get (Some item) "nombreId") as [nombreId | e]; [| discriminate].
  destruct (get (Some item) "valor") as [valor | e]; [| discriminate].
  rewrite !bind_Ok.
  destruct (to_property_key nombreId) as [key | e]; [| discriminate].
  rewrite bind_Ok. intros H. injection H as <-. eauto.
Qed.

Lemma reduce_app {A B} (f : B → A → result B) (l1 l2 : list A) (acc : B) :
  reduce f (l1 ++ l2) acc = (acc' ← reduce f l1 acc; reduce f l2 acc').
Proof.
  revert acc. induction l1 as [| x r IH]; intros acc; simpl; [reflexivity |].
  destruct (f acc x) as [a | e]; [apply IH | reflexivity].
Qed.

(** Items stored under other keys leave a binding alone. *)
Lemma reduce_keeps_binding (post : list JSON) (id : string) (v : value)
    (acc acc' : js_object) :
  (∀ it, it ∈ post → item_key it ≠ Ok id) →
  own acc !! id = Some v →
  reduce McpServer.fold_item post acc = Ok acc' →
  own acc' !! id = Some v.
Proof.
  revert acc. induction post as [| it r IH]; intros acc Hother Hown; simpl.
  - intros H. injection H as <-. exact Hown.
  - destruct (McpServer.fold_item acc it) as [a | e] eqn:Hstep; [| discriminate].
    rewrite bind_Ok. apply IH.
    + intros it' Hin. apply Hother. right. exact Hin.
    + destruct (fold_item_inv _ _ _ Hstep) as (key & valor & Hkey & ->).
      rewrite set_prop_own_other; [exact Hown |].
      intros ->. apply (Hother it); [left | exact Hkey].
Qed.

(** Later bindings overwrite earlier ones: for every attribute id other
    than [__proto__], the folded lookup is the [valor] of the last item
    stored under that id. *)
Lemma fold_keeps_last (pre post : list JSON) (item : JSON) (id : string) (v : value)
    (acc : js_object) :
  get (Some item) "nombreId" = Ok (Some (JStr id)) →
  get (Some item) "valor" = Ok v →
  id ≠ "__proto__" →
  (∀ it, it ∈ post → item_key it ≠ Ok id) →
  reduce McpServer.fold_item (pre ++ item :: post) empty_object = Ok acc →
  acc_get acc id = v.
Proof.
  intros Hid Hv Hne Hother. rewrite reduce_app.
  destruct (reduce McpServer.fold_item pre empty_object) as [a | e]; [| discriminate].
  rewrite bind_Ok. cbn [reduce].
  assert (Hstep : McpServer.fold_item a item = Ok (set_prop a id v)).
  { unfold McpServer.fold_item. rewrite Hid, bind_Ok, Hv. reflexivity. }
  rewrite Hstep, bind_Ok, (set_prop_ordinary _ _ _ Hne). intros Hpost.
  unfold acc_get.
  rewrite (reduce_keeps_binding post id v _ acc Hother (lookup_insert_eq _ _ _) Hpost).
  reflexivity.
Qed.

Lemma fold_keeps_last_example :
  ∀ acc,
    reduce McpServer.fold_item
      [attribute "calle" "ECHAGUE, PEDRO"; attribute "lado" "derecho";
       attribute "calle" "GARAY, JUAN DE"] empty_object = Ok acc →
    acc_get acc "calle" = Some (JStr "GARAY, JUAN DE").
Proof.
  intros acc.
  apply (fold_keeps_last
           [attribute "calle" "ECHAGUE, PEDRO"; attribute "lado" "derecho"] []
           (attribute "calle" "GARAY, JUAN DE") "calle"
           (Some (JStr "GARAY, JUAN DE")) acc);
    [reflexivity | reflexivity | discriminate |].
  intros it Hin. apply elem_of_nil in Hin. contradiction.
Defined.

(** C10: the accumulator is an ordinary object, so the id [__proto__] is
    not stored like the others: assigning a string to it is ignored by the
    accessor of [Object.prototype]. With two entries under that id the fold
    returns the untouched empty object and the last [valor] is not kept,
    where the same entries under [calle] leave the last one bound. *)
Theorem proto_attribute_is_dropped :
  McpServer.contenido_reduce
    (JObj [("contenido", JObj [("contenido", JArr [
       attribute "__proto__" "a"; attribute "__proto__" "b"])])])
    = Ok empty_object ∧
  (∃ acc,
     McpServer.contenido_reduce
       (JObj [("contenido", JObj [("contenido", JArr [
          attribute "calle" "a"; attribute "calle" "b"])])])
       = Ok acc ∧
     acc_get acc "calle" = Some (JStr "b")).
Proof.
  split; [vm_compute; reflexivity |].
  eexists. split; [vm_compute; reflexivity | reflexivity].
Qed.

Lemma set_prop_plain_prototype (o : js_object) (k : string) (v : JSON) :
  relinks_prototype (k, v) = false → plain_prototype o →
  plain_prototype (set_prop o k (Some v)).
Proof.
  unfold relinks_prototype, plain_prototype, set_prop. cbn [fst snd].
  intros Hre Hplain props.
  destruct (own o !! k); [apply Hplain |].
  destruct (String.eqb k "__proto__"); [| apply Hplain].
  destruct (inherits_proto_setter (proto o)); [| apply Hplain].
  destruct v; simpl in *; first [discriminate | apply Hplain].
Qed.

(** The fold of well-formed pairs succeeds, and away from [__proto__] it
    binds every id to its last value. *)
Lemma reduce_encoded (items : list JSON) (attrs : list (string * JSON)) (acc0 : js_object) :
  Forall2 encodes items attrs →
  Forall (λ a, relinks_prototype a = false) attrs →
  plain_prototype acc0 →
  ∃ acc,
    reduce McpServer.fold_item items acc0 = Ok acc ∧
    plain_prototype acc ∧
    ∀ k, k ≠ "__proto__" →
      own acc !! k = match last_valor k attrs with
                     | Some v => Some (Some v)
                     | None => own acc0 !! k
                     end.
Proof.
  intros Henc. revert acc0.
  induction Henc as [| item [k v] items attrs [Hid Hv] _ IH]; intros acc0 Hre Hplain.
  - exists acc0. auto.
  - apply Forall_cons in Hre as [Hkv Hre]. cbn [fst snd] in Hid, Hv.
    assert (Hstep : McpServer.fold_item acc0 item = Ok (set_prop acc0 k (Some v))).
    { unfold McpServer.fold_item. rewrite Hid, bind_Ok, Hv. reflexivity. }
    destruct (IH _ Hre (set_prop_plain_prototype _ _ _ Hkv Hplain))
      as (acc & Hred & Hplain' & Hown).
    exists acc. cbn [reduce]. rewrite Hstep, bind_Ok.
    split; [exact Hred | split; [exact Hplain' |]].
    intros k' Hk'. rewrite (Hown k' Hk'). cbn [last_valor].
    destruct (last_valor k' attrs); [reflexivity |].
    destruct (String.eqb_spec k' k) as [-> | Hne].
    + rewrite (set_prop_ordinary _ _ _ Hk'). apply lookup_insert_eq.
    + apply set_prop_own_other. congruence.
Qed.

(** The folded lookup of well-formed pairs is the last value of the id. *)
Lemma acc_get_reduce_encoded (items : list JSON) (attrs : list (string * JSON)) :
  Forall2 encodes items attrs →
  Forall (λ a, relinks_prototype a = false) attrs →
  ∃ acc,
    reduce McpServer.fold_item items empty_object = Ok acc ∧
    ∀ k, k ≠ "__proto__" → acc_get acc k = last_valor k attrs.
Proof.
  intros Henc Hre.
  destruct (reduce_encoded items attrs empty_object Henc Hre)
    as (acc & Hred & Hplain & Hown); [discriminate |].
  exists acc. split; [exact Hred |].
  intros k Hk. unfold acc_get. rewrite (Hown k Hk).
  destruct (last_valor k attrs); [reflexivity |].
  simpl. rewrite lookup_empty.
  destruct (proto acc) as [| | [| | | | |]] eqn:Hp; try reflexivity.
  exfalso. exact (Hplain _ Hp).
Qed.

(** Defaults away from the prototype defect: every normalized record
    exposes the default of a field whose lookup finds nothing, and for a
    nested-variant instance whose attribute array holds well-formed pairs,
    none of them an object under [__proto__], normalization succeeds
    whichever ids are present and each of [calle], [altura], [permiso],
    [horario], [lado] missing from the array, and a missing [distancia],
    shows as its default. *)
Theorem defaults_for_missing_attributes (est c : JSON) (items : list JSON)
    (attrs : list (string * JSON)) :
  get (Some est) "contenido" = Ok (Some c) →
  get (Some c) "contenido" = Ok (Some (JArr items)) →
  Forall2 encodes items attrs →
  Forall (λ a, relinks_prototype a = false) attrs →
  (∀ e : McpServer.estacionamiento,
     (acc_get (McpServer.detalles e) "calle" = None →
        McpServer.calle e = JStr "Calle no especificada") ∧
     (acc_get (McpServer.detalles e) "altura" = None → McpServer.altura e = JStr "S/N") ∧
     (acc_get (McpServer.detalles e) "permiso" = None → McpServer.permiso e = JStr "Sin datos") ∧
     (acc_get (McpServer.detalles e) "horario" = None →
        McpServer.horario e = JStr "Sin horario") ∧
     (acc_get (McpServer.detalles e) "lado" = None → McpServer.lado e = JStr "") ∧
     (assoc "distancia" (McpServer.est_props e) = None → McpServer.distancia e = JStr "N/D")) ∧
  ∃ e,
    McpServer.normalize est = Ok e ∧
    (last_valor "calle" attrs = None → McpServer.calle e = JStr "Calle no especificada") ∧
    (last_valor "altura" attrs = None → McpServer.altura e = JStr "S/N") ∧
    (last_valor "permiso" attrs = None → McpServer.permiso e = JStr "Sin datos") ∧
    (last_valor "horario" attrs = None → McpServer.horario e = JStr "Sin horario") ∧
    (last_valor "lado" attrs = None → McpServer.lado e = JStr "") ∧
    (get (Some est) "distancia" = Ok None → McpServer.distancia e = JStr "N/D").
Proof.
  intros Hc Hitems Henc Hre. split.
  - intros e.
    unfold McpServer.calle, McpServer.altura, McpServer.permiso, McpServer.horario,
      McpServer.lado, McpServer.distancia.
    repeat split; intros ->; reflexivity.
  - destruct (acc_get_reduce_encoded items attrs Henc Hre) as (acc & Hred & Hget).
    exists {| McpServer.est_props := McpServer.spread est; McpServer.detalles := acc |}.
    split.
    { unfold McpServer.normalize, McpServer.contenido_reduce.
      rewrite Hc, bind_Ok, Hitems, bind_Ok, Hred. reflexivity. }
    unfold McpServer.calle, McpServer.altura, McpServer.permiso, McpServer.horario,
      McpServer.lado, McpServer.distancia. cbn [McpServer.detalles McpServer.est_props].
    rewrite !Hget by discriminate.
    repeat split; try (intros ->; reflexivity).
    destruct est; try discriminate Hc. simpl. intros H. injection H as ->. reflexivity.
Qed.

Lemma defaults_for_missing_attributes_witness :
  ∃ e,
    McpServer.normalize
      (JObj [("contenido", JObj [("contenido", JArr [attribute "calle" "ECHAGUE, PEDRO"])])])
      = Ok e ∧
    McpServer.calle e = JStr "ECHAGUE, PEDRO" ∧
    McpServer.altura e = JStr "S/N" ∧
    McpServer.permiso e = JStr "Sin datos" ∧
    McpServer.horario e = JStr "Sin horario" ∧
    McpServer.lado e = JStr "" ∧
    McpServer.distancia e = JStr "N/D".
Proof.
  destruct (defaults_for_missing_attributes
              (JObj [("contenido", JObj [("contenido", JArr [attribute "calle" "ECHAGUE, PEDRO"])])])
              (JObj [("contenido", JArr [attribute "calle" "ECHAGUE, PEDRO"])])
              [attribute "calle" "ECHAGUE, PEDRO"]
              [("calle", JStr "ECHAGUE, PEDRO")])
    as (_ & e & He & _ & Ha & Hp & Hh & Hl & Hd).
  - reflexivity.
  - reflexivity.
  - repeat constructor.
  - repeat constructor.
  - exists e. repeat split; [exact He | | auto ..].
    injection He as <-. reflexivity.
Defined.

(** With no attribute at all the block is rendered from the defaults. *)
Example block_of_defaults :
  ∃ e,
    McpServer.normalize (JObj [("contenido", JObj [("contenido", JArr [])])]) = Ok e ∧
    McpServer.render_block 0 e =
      Ok (nl +:+ "📍 1. Calle no especificada S/N ()" +:+ nl +:+
          "- Tipo: Sin datos" +:+ nl +:+
          "- Horario: Sin horario" +:+ nl +:+
          "- Distancia: N/D metros" +:+ nl).
Proof. eexists. split; vm_compute; reflexivity. Qed.

(** C1, as stated, fails: the two shapes are not interchangeable. The
    nested instance of the scenario and the flat object carrying the same
    values agree on every attribute, yet the normalizer of
    [src/mcp-server.js] yields a record for the first and throws on the
    second, and the flat prompt of [src/unnamed/part_000] reads none of the
    nested attributes. *)
Lemma flat_instance_is_not_normalized :
  (∃ e,
     McpServer.normalize echague = Ok e ∧
     Forall (λ k, Ok (acc_get (McpServer.detalles e) k) = get (Some echague_flat) k)
       ["calle"; "altura"; "permiso"; "horario"; "lado"] ∧
     Ok (assoc "distancia" (McpServer.est_props e)) = get (Some echague_flat) "distancia") ∧
  McpServer.normalize echague_flat = Throw (TypeError (ReadOfUndefined "contenido")) ∧
  McpServer.estacionamientos (Some (JArr [echague])) ≠
    McpServer.estacionamientos (Some (JArr [echague_flat])) ∧
  Part000.render_block 0 echague =
    Ok (nl +:+ "1. Sin nombre" +:+ nl +:+
        "- Dirección: No especificada" +:+ nl +:+
        "- Tarifa: No especificada" +:+ nl +:+
        "- Capacidad: ?" +:+ nl +:+
        "- Disponibles: ?" +:+ nl).
Proof.
  split; [| split; [| split]].
  - eexists. split; [vm_compute; reflexivity |].
    split; [repeat constructor | reflexivity].
  - reflexivity.
  - vm_compute. discriminate.
  - vm_compute. reflexivity.
Qed.

(** The fold of well-formed pairs none of which changes the prototype:
    the folded object still inherits from [Object.prototype], and away
    from [__proto__] its own properties are the last values of the ids. *)
Lemma reduce_encoded_unlinked (items : list JSON) (attrs : list (string * JSON))
    (acc0 : js_object) :
  Forall2 encodes items attrs →
  Forall (λ a, changes_prototype a = false) attrs →
  proto acc0 = ObjectPrototype →
  own acc0 !! "__proto__" = None →
  ∃ acc,
    reduce McpServer.fold_item items acc0 = Ok acc ∧
    proto acc = ObjectPrototype ∧
    own acc !! "__proto__" = None ∧
    ∀ k, k ≠ "__proto__" →
      own acc !! k = match last_valor k attrs with
                     | Some v => Some (Some v)
                     | None => own acc0 !! k
                     end.
Proof.
  intros Henc. revert acc0.
  induction Henc as [| item [k v] items attrs [Hid Hv] _ IH]; intros acc0 Hch Hproto Hown.
  - exists acc0. auto.
  - apply Forall_cons in Hch as [Hkv Hch]. cbn [fst snd] in Hid, Hv.
    assert (Hstep : McpServer.fold_item acc0 item = Ok (set_prop acc0 k (Some v))).
    { unfold McpServer.fold_item. rewrite Hid, bind_Ok, Hv. reflexivity. }
    assert (Hinv : proto (set_prop acc0 k (Some v)) = ObjectPrototype ∧
                   own (set_prop acc0 k (Some v)) !! "__proto__" = None).
    { destruct (String.eqb_spec k "__proto__") as [-> | Hne].
      - unfold set_prop. rewrite Hown, Hproto. simpl.
        unfold changes_prototype in Hkv. simpl in Hkv.
        destruct v; try discriminate Hkv; simpl; auto.
      - rewrite (set_prop_ordinary _ _ _ Hne). simpl.
        split; [exact Hproto | rewrite lookup_insert_ne by exact Hne; exact Hown]. }
    destruct Hinv as [Hproto' Hown'].
    destruct (IH _ Hch Hproto' Hown') as (acc & Hred & Hp & Ho & Hlook).
    exists acc. cbn [reduce]. rewrite Hstep, bind_Ok.
    split; [exact Hred | split; [exact Hp | split; [exact Ho |]]].
    intros k' Hk'. rewrite (Hlook k' Hk'). cbn [last_valor].
    destruct (last_valor k' attrs); [reflexivity |].
    destruct (String.eqb_spec k' k) as [-> | Hne].
    + rewrite (set_prop_ordinary _ _ _ Hk'). apply lookup_insert_eq.
    + apply set_prop_own_other. congruence.
Qed.

(** C1, amended. For well-formed pairs, none changing the prototype (no
    object, array or [null] under [__proto__]), the fold succeeds and the
    folded object is, away from [__proto__], the flat object carrying the
    same logical values: it inherits from [Object.prototype] as every
    parsed object does, and at every id its own property is the flat
    object's own property, so that reading an id from either gives the
    same. An instance without an attribute array is not normalized, the
    fold throws instead. *)
Theorem fold_agrees_with_flat_lookup (items : list JSON)
    (attrs flat : list (string * JSON)) :
  Forall2 encodes items attrs →
  Forall (λ a, changes_prototype a = false) attrs →
  (∀ k, assoc k flat = last_valor k attrs) →
  (∃ acc,
     reduce McpServer.fold_item items empty_object = Ok acc ∧
     proto acc = ObjectPrototype ∧
     ∀ k, k ≠ "__proto__" →
       own acc !! k = Some <$> assoc k flat ∧
       Ok (acc_get acc k) = get (Some (JObj flat)) k) ∧
  (has_attribute_array (JObj flat) = false →
   ∃ t, McpServer.normalize (JObj flat) = Throw (TypeError t)).
Proof.
  intros Henc Hch Hsame. split.
  - destruct (reduce_encoded_unlinked items attrs empty_object Henc Hch eq_refl)
      as (acc & Hred & Hproto & _ & Hown); [apply lookup_empty |].
    exists acc. split; [exact Hred | split; [exact Hproto |]].
    intros k Hk. specialize (Hown k Hk). rewrite <- Hsame in Hown.
    assert (Hk' : own acc !! k = Some <$> assoc k flat).
    { rewrite Hown. destruct (assoc k flat); [reflexivity | apply lookup_empty]. }
    split; [exact Hk' |].
    unfold acc_get. rewrite Hk', Hproto. simpl. destruct (assoc k flat); reflexivity.
  - apply normalize_without_attribute_array.
Qed.

Lemma fold_agrees_with_flat_lookup_witness :
  ∃ acc,
    reduce McpServer.fold_item
      [attribute "calle" "ECHAGUE, PEDRO"; attribute "lado" "izquierdo";
       attribute "lado" "derecho"] empty_object = Ok acc ∧
    proto acc = ObjectPrototype ∧
    ∀ k, k ≠ "__proto__" →
      own acc !! k =
        Some <$> assoc k [("calle", JStr "ECHAGUE, PEDRO"); ("lado", JStr "derecho")] ∧
      Ok (acc_get acc k) =
        get (Some (JObj [("calle", JStr "ECHAGUE, PEDRO"); ("lado", JStr "derecho")])) k.
Proof.
  apply (fold_agrees_with_flat_lookup
           [attribute "calle" "ECHAGUE, PEDRO"; attribute "lado" "izquierdo";
            attribute "lado" "derecho"]
           [("calle", JStr "ECHAGUE, PEDRO"); ("lado", JStr "izquierdo");
            ("lado", JStr "derecho")]
           [("calle", JStr "ECHAGUE, PEDRO"); ("lado", JStr "derecho")]).
  - repeat constructor.
  - repeat constructor.
  - intros k.
    destruct (String.eqb_spec k "lado") as [-> | Hlado]; [reflexivity |].
    destruct (String.eqb_spec k "calle") as [-> | Hcalle]; [reflexivity |].
    apply String.eqb_neq in Hlado, Hcalle. simpl. rewrite Hlado, Hcalle. reflexivity.
Defined.

(** C6: the defaults stand for missing attribute keys unless the array
    holds an object under [__proto__]. The accumulator being an ordinary
    object, that pair becomes its prototype: with no [calle] pair at all,
    the record has no own [calle], reads it from the prototype, and the
    block shows that street in place of the default. *)
Theorem proto_object_overrides_default :
  last_valor "calle" [("__proto__", JObj [("calle", JStr "GARAY, JUAN DE")])] = None ∧
  ∃ e,
    McpServer.normalize
      (JObj [("contenido", JObj [("contenido", JArr [
         JObj [("nombreId", JStr "__proto__");
               ("valor", JObj [("calle", JStr "GARAY, JUAN DE")])]])])]) = Ok e ∧
    own (McpServer.detalles e) !! "calle" = None ∧
    McpServer.calle e = JStr "GARAY, JUAN DE" ∧
    McpServer.calle e ≠ JStr "Calle no especificada" ∧
    McpServer.render_block 0 e =
      Ok (mcp_block 0 "GARAY, JUAN DE" "S/N" "" "Sin datos" "Sin horario" "N/D").
Proof.
  split; [reflexivity |].
  eexists. split; [vm_compute; reflexivity |].
  split; [reflexivity |]. split; [reflexivity |].
  split; [discriminate | vm_compute; reflexivity].
Qed.

(** * Further properties of the routes and handlers *)

Lemma truthy_false_iff (v : value) : truthy v = false ↔ falsy v.
Proof.
  unfold falsy. split.
  - destruct v as [[| [|] | n | s | l | props] |]; simpl; intros H;
      try discriminate H; auto.
    + apply negb_false_iff, Z.eqb_eq in H. subst n. auto 6.
    + apply negb_false_iff, String.eqb_eq in H. subst s. auto 6.
  - intros [-> | [-> | [-> | [-> | ->]]]]; reflexivity.
Qed.

Lemma lacks_data_iff (input : value) :
  lacks_data input = true ↔
  falsy input ∨ ∃ data, get input "data" = Ok data ∧ falsy data.
Proof.
  unfold lacks_data. rewrite orb_true_iff, negb_true_iff, truthy_false_iff. split.
  - intros [H | H]; [left; exact H |].
    destruct (get input "data") as [data | e] eqn:Hget.
    + right. exists data. split; [reflexivity |].
      apply truthy_false_iff, negb_true_iff, H.
    + left. destruct input as [[| | | | |] |]; try discriminate Hget; unfold falsy; auto.
  - intros [H | (data & Hget & H)]; [left; exact H |].
    right. rewrite Hget. apply negb_true_iff, truthy_false_iff, H.
Qed.

(** The four answers of a route, with what ran. *)
Lemma mcp_route_cases (tools : list (string * handler_type)) (w : world)
    (toolName : string) (body : JSON) (input : value) :
  get (Some body) "input" = Ok input →
  (lacks_data input = true ∧
     ∃ b, McpServer.post_mcp_tool tools w toolName body = ([], Respond 400 b)) ∨
  (lacks_data input = false ∧ tools_get tools toolName = None ∧
     ∃ b, McpServer.post_mcp_tool tools w toolName body = ([], Respond 404 b)) ∨
  (∃ h, lacks_data input = false ∧ tools_get tools toolName = Some h ∧
     ((∃ r, snd (h w input) = Ok r ∧
            McpServer.post_mcp_tool tools w toolName body =
              (HandlerInvoked toolName :: (CompletionCall <$> fst (h w input)),
               Respond 200 (JObj (("success", JBool true) :: props_of_result r)))) ∨
      (∃ e b, snd (h w input) = Throw e ∧
            McpServer.post_mcp_tool tools w toolName body =
              (HandlerInvoked toolName :: (CompletionCall <$> fst (h w input)),
               Respond 500 b)))).
Proof.
  intros Hin. unfold McpServer.post_mcp_tool. rewrite Hin.
  destruct (lacks_data input); [left; eauto |].
  destruct (tools_get tools toolName) as [h |]; [| right; left; eauto].
  right. right. exists h. split; [reflexivity | split; [reflexivity |]].
  destruct (h w input) as [calls [r | e]]; simpl; [left | right]; eauto.
Qed.

Lemma part000_route_cases (tools : list (string * handler_type)) (w : world)
    (toolName : string) (body : JSON) (input : value) :
  get (Some body) "input" = Ok input →
  (lacks_data input = true ∧
     ∃ b, Part000.post_mcp_tool tools w toolName body = ([], Respond 400 b)) ∨
  (lacks_data input = false ∧ tools_get tools toolName = None ∧
     ∃ b, Part000.post_mcp_tool tools w toolName body = ([], Respond 404 b)) ∨
  (∃ h, lacks_data input = false ∧ tools_get tools toolName = Some h ∧
     ((∃ r, snd (h w input) = Ok r ∧
            Part000.post_mcp_tool tools w toolName body =
              (HandlerInvoked toolName :: (CompletionCall <$> fst (h w input)),
               Respond 200 (JObj (props_of_result r)))) ∨
      (∃ e b, snd (h w input) = Throw e ∧
            Part000.post_mcp_tool tools w toolName body =
              (HandlerInvoked toolName :: (CompletionCall <$> fst (h w input)),
               Respond 500 b)))).
Proof.
  intros Hin. unfold Part000.post_mcp_tool. rewrite Hin.
  destruct (lacks_data input); [left; eauto |].
  destruct (tools_get tools toolName) as [h |]; [| right; left; eauto].
  right. right. exists h. split; [reflexivity | split; [reflexivity |]].
  destruct (h w input) as [calls [r | e]]; simpl; [left | right]; eauto.
Qed.

(** X1. Both routes answer 400 exactly when [input] or [input.data] is
    falsy: not only when absent, also for [null], [false], [0] and the
    empty string; whatever the tool name and the registry. *)
Theorem bad_request_iff_falsy (tools : list (string * handler_type)) (w : world)
    (toolName : string) (body : JSON) (input : value) :
  get (Some body) "input" = Ok input →
  (status_of (snd (McpServer.post_mcp_tool tools w toolName body)) = Some 400%Z ↔
     falsy input ∨ ∃ data, get input "data" = Ok data ∧ falsy data) ∧
  (status_of (snd (Part000.post_mcp_tool tools w toolName body)) = Some 400%Z ↔
     falsy input ∨ ∃ data, get input "data" = Ok data ∧ falsy data).
Proof.
  intros Hin. rewrite <- lacks_data_iff. split.
  - destruct (mcp_route_cases tools w toolName body input Hin)
      as [(Hl & b & ->) | [(Hl & _ & b & ->) | (h & Hl & _ & [(r & _ & ->) | (e & b & _ & ->)])]];
      rewrite Hl; simpl; split; first [reflexivity | discriminate].
  - destruct (part000_route_cases tools w toolName body input Hin)
      as [(Hl & b & ->) | [(Hl & _ & b & ->) | (h & Hl & _ & [(r & _ & ->) | (e & b & _ & ->)])]];
      rewrite Hl; simpl; split; first [reflexivity | discriminate].
Qed.

Lemma bad_request_iff_falsy_witness :
  status_of (snd (McpServer.post_mcp_tool McpServer.tools offline "analizar-estacionamiento"
                    (JObj [("input", JObj [("data", JNum 0)])]))) = Some 400%Z.
Proof.
  apply (bad_request_iff_falsy McpServer.tools offline "analizar-estacionamiento"
           (JObj [("input", JObj [("data", JNum 0)])])
           (Some (JObj [("data", JNum 0)])));
    [reflexivity |].
  right. exists (Some (JNum 0)). split; [reflexivity |]. unfold falsy. auto 6.
Defined.

(** X2. Whatever the registry and its handlers, a request with a body
    other than [null] is always answered, with status 200, 400, 404 or
    500; a handler was invoked, once, exactly when the status is 200 or
    500, and then it is the one registered under the tool name. *)
Theorem route_always_answers (tools : list (string * handler_type)) (w : world)
    (toolName : string) (body : JSON) (input : value) :
  get (Some body) "input" = Ok input →
  ∃ st b,
    McpServer.post_mcp_tool tools w toolName body =
      (fst (McpServer.post_mcp_tool tools w toolName body), Respond st b) ∧
    (st = 200 ∨ st = 400 ∨ st = 404 ∨ st = 500)%Z ∧
    ((st = 400 ∨ st = 404)%Z →
       fst (McpServer.post_mcp_tool tools w toolName body) = []) ∧
    ((st = 200 ∨ st = 500)%Z →
       ∃ h, tools_get tools toolName = Some h ∧
            fst (McpServer.post_mcp_tool tools w toolName body) =
              HandlerInvoked toolName :: (CompletionCall <$> fst (h w input))).
Proof.
  intros Hin.
  destruct (mcp_route_cases tools w toolName body input Hin)
    as [(_ & b & ->) | [(_ & _ & b & ->) | (h & _ & Hh & [(r & _ & ->) | (e & b & _ & ->)])]];
    simpl; do 2 eexists; (split; [reflexivity |]).
  - split; [auto |]. split; [reflexivity | intros [H | H]; discriminate H].
  - split; [auto |]. split; [reflexivity | intros [H | H]; discriminate H].
  - split; [auto |]. split; [intros [H | H]; discriminate H | eauto].
  - split; [auto |]. split; [intros [H | H]; discriminate H | eauto].
Qed.

Lemma route_always_answers_witness :
  ∃ st b,
    McpServer.post_mcp_tool McpServer.tools offline "analizar-estacionamiento" (JArr []) =
      (fst (McpServer.post_mcp_tool McpServer.tools offline "analizar-estacionamiento" (JArr [])),
       Respond st b) ∧
    (st = 200 ∨ st = 400 ∨ st = 404 ∨ st = 500)%Z.
Proof.
  destruct (route_always_answers McpServer.tools offline "analizar-estacionamiento"
              (JArr []) None) as (st & b & H & Hst & _); [reflexivity |].
  exists st, b. split; [exact H | exact Hst].
Defined.

Lemma only_TypeError_mapiM_from {A B} (f : nat → A → result B) (l : list A) (i : nat) :
  (∀ i x, throws_only_TypeError (f i x)) → throws_only_TypeError (mapiM_from i f l).
Proof.
  intros Hf. revert i. induction l as [| x r IH]; intros i; simpl.
  - apply only_TypeError_Ok.
  - apply only_TypeError_bind; [apply Hf |].
    intros y. apply only_TypeError_bind; [apply IH | intros ys; apply only_TypeError_Ok].
Qed.

Ltac only_TypeError :=
  repeat first
    [ apply only_TypeError_Ok
    | apply only_TypeError_Throw
    | apply only_TypeError_get
    | apply only_TypeError_to_string
    | apply only_TypeError_to_string_value
    | apply only_TypeError_bind; [| intro] ].

Lemma only_TypeError_mcp_prepare (input : value) :
  throws_only_TypeError (McpServer.prepare input).
Proof.
  unfold McpServer.prepare.
  apply only_TypeError_bind; [apply only_TypeError_get | intros data].
  apply only_TypeError_bind; [apply only_TypeError_get | intros instancias].
  destruct (no_instancias instancias); [apply only_TypeError_Ok |].
  apply only_TypeError_bind; [| intros ests].
  { destruct instancias as [[| | | | l |] |]; try apply only_TypeError_Throw.
    apply only_TypeError_mapM, only_TypeError_normalize. }
  apply only_TypeError_bind; [apply only_TypeError_get | intros total].
  apply only_TypeError_bind; [apply only_TypeError_get | intros totalFull].
  apply only_TypeError_bind; [| intros prompt; apply only_TypeError_Ok].
  unfold McpServer.build_prompt.
  apply only_TypeError_bind; [apply only_TypeError_to_string_value | intros s1].
  apply only_TypeError_bind; [apply only_TypeError_to_string_value | intros s2].
  apply only_TypeError_bind; [| intros bs; apply only_TypeError_Ok].
  apply only_TypeError_mapiM_from. intros i e. unfold McpServer.render_block.
  only_TypeError.
Qed.

Lemma only_TypeError_part000_prepare (input : value) :
  throws_only_TypeError (Part000.prepare input).
Proof.
  unfold Part000.prepare.
  apply only_TypeError_bind; [apply only_TypeError_get | intros data].
  apply only_TypeError_bind; [apply only_TypeError_get | intros instancias].
  destruct (no_instancias instancias); [apply only_TypeError_Ok |].
  apply only_TypeError_bind; [apply only_TypeError_get | intros total].
  apply only_TypeError_bind; [apply only_TypeError_get | intros totalFull].
  apply only_TypeError_bind; [| intros prompt; apply only_TypeError_Ok].
  unfold Part000.build_prompt.
  apply only_TypeError_bind; [apply only_TypeError_to_string_value | intros s1].
  apply only_TypeError_bind; [apply only_TypeError_to_string_value | intros s2].
  apply only_TypeError_bind; [| intros bs; apply only_TypeError_Ok].
  unfold Part000.blocks.
  destruct instancias as [[| | | | l |] |]; try apply only_TypeError_Throw.
  apply only_TypeError_mapiM_from. intros i e.
  unfold Part000.render_block, Part000.field. only_TypeError.
Qed.

(** What a handler run looks like: it threw before any call, it returned
    early, or it made its one call and returned. *)
Lemma mcp_handler_cases (w : world) (input : value) :
  (∃ t, McpServer.handler w input = ([], Throw (TypeError t))) ∨
  McpServer.handler w input = ([], Ok McpServer.no_encontrados) ∨
  (∃ total ests prompt,
     McpServer.prepare input = Ok (Some (total, ests, prompt)) ∧
     McpServer.handler w input =
       ([McpServer.chat_request_of prompt],
        Ok match McpServer.try_block w total ests prompt with
           | Ok r => r
           | Throw e => McpServer.catch_block w e
           end)).
Proof.
  unfold McpServer.handler.
  destruct (McpServer.prepare input) as [[[[total ests] prompt] |] | e] eqn:Hp.
  - right. right. eauto.
  - right. left. reflexivity.
  - left. destruct (is_TypeError_inv e (only_TypeError_mcp_prepare input e Hp)) as [t ->].
    eauto.
Qed.

Lemma part000_handler_cases (w : world) (input : value) :
  (∃ t, Part000.handler w input = ([], Throw (TypeError t))) ∨
  Part000.handler w input = ([], Ok Part000.no_encontrados) ∨
  (∃ prompt,
     Part000.prepare input = Ok (Some prompt) ∧
     Part000.handler w input =
       ([Part000.chat_request_of prompt],
        Ok match Part000.try_block w prompt with
           | Ok r => r
           | Throw e => Part000.catch_block w e
           end)).
Proof.
  unfold Part000.handler.
  destruct (Part000.prepare input) as [[prompt |] | e] eqn:Hp.
  - right. right. eauto.
  - right. left. reflexivity.
  - left. destruct (is_TypeError_inv e (only_TypeError_part000_prepare input e Hp)) as [t ->].
    eauto.
Qed.

(** X3. A 500 answer of either server means the handler threw a
    [TypeError] of the engine before calling the completion service: the
    trace holds the handler invocation alone and [detalle] is the engine's
    message. Nothing the service does or throws ends in a 500. *)
Theorem internal_error_precedes_completion (w : world) (toolName : string) (body b : JSON) :
  (snd (McpServer.post_mcp_tool McpServer.tools w toolName body) = Respond 500 b →
     fst (McpServer.post_mcp_tool McpServer.tools w toolName body) = [HandlerInvoked toolName] ∧
     ∃ t, assoc "detalle" (match b with JObj props => props | _ => [] end)
          = Some (JStr (engine_message w t))) ∧
  (snd (Part000.post_mcp_tool Part000.tools w toolName body) = Respond 500 b →
     fst (Part000.post_mcp_tool Part000.tools w toolName body) = [HandlerInvoked toolName] ∧
     ∃ t, assoc "detalle" (match b with JObj props => props | _ => [] end)
          = Some (JStr (engine_message w t))).
Proof.
  split.
  - unfold McpServer.post_mcp_tool.
    destruct (get (Some body) "input") as [input | e]; [| discriminate].
    destruct (lacks_data input); [discriminate |].
    unfold McpServer.tools. cbn [tools_get].
    destruct (String.eqb toolName "analizar-estacionamiento"); [| discriminate].
    destruct (mcp_handler_cases w input) as [[t ->] | [-> | (total & ests & prompt & _ & ->)]];
      simpl; intros H; try discriminate H.
    injection H as <-. split; [reflexivity | exists t; reflexivity].
  - unfold Part000.post_mcp_tool.
    destruct (get (Some body) "input") as [input | e]; [| discriminate].
    destruct (lacks_data input); [discriminate |].
    unfold Part000.tools. cbn [tools_get].
    destruct (String.eqb toolName "analizar-estacionamiento"); [| discriminate].
    destruct (part000_handler_cases w input) as [[t ->] | [-> | (prompt & _ & ->)]];
      simpl; intros H; try discriminate H.
    injection H as <-. split; [reflexivity | exists t; reflexivity].
Qed.

Lemma internal_error_precedes_completion_witness :
  fst (McpServer.post_mcp_tool McpServer.tools offline "analizar-estacionamiento"
         (request_body (query_result [echague_flat] 1 1)))
    = [HandlerInvoked "analizar-estacionamiento"].
Proof.
  apply (internal_error_precedes_completion offline "analizar-estacionamiento"
           (request_body (query_result [echague_flat] 1 1))
           (JObj [("error", JStr "Error interno al procesar la solicitud");
                  ("detalle", JStr "Cannot read properties of undefined (reading 'contenido')")])).
  reflexivity.
Defined.

(** X15. Whatever a handler returns has exactly one content block, of type
    text. In [src/mcp-server.js] an error-flagged result carries no
    metadata; in [src/unnamed/part_000] no result carries an error flag or
    metadata. *)
Theorem result_has_one_text_block (w : world) (input : value) (r : analysis_result) :
  (snd (McpServer.handler w input) = Ok r →
     (∃ t, content r = [{| type := "text"; text := t |}]) ∧
     (error r = true → metadata r = None)) ∧
  (snd (Part000.handler w input) = Ok r →
     (∃ t, content r = [{| type := "text"; text := t |}]) ∧
     error r = false ∧ metadata r = None).
Proof.
  split.
  - destruct (mcp_handler_cases w input) as [[t ->] | [-> | (total & ests & prompt & _ & ->)]];
      simpl; intros H; try discriminate H; injection H as <-.
    + split; [eexists; reflexivity | discriminate].
    + unfold McpServer.try_block.
      destruct (completions_create w _) as [response | e]; simpl;
        [| split; [eexists; reflexivity | reflexivity]].
      destruct (first_choice_content response) as [analysis | e]; simpl;
        [| split; [eexists; reflexivity | reflexivity]].
      destruct (McpServer.count_permiso "PERMITIDO" ests) as [n | e]; simpl;
        [| split; [eexists; reflexivity | reflexivity]].
      destruct (McpServer.count_permiso "PROHIBIDO" ests) as [m | e]; simpl;
        [| split; [eexists; reflexivity | reflexivity]].
      split; [eexists; reflexivity | discriminate].
  - destruct (part000_handler_cases w input) as [[t ->] | [-> | (prompt & _ & ->)]];
      simpl; intros H; try discriminate H; injection H as <-.
    + split; [eexists; reflexivity | split; reflexivity].
    + unfold Part000.try_block.
      destruct (completions_create w _) as [response | e]; simpl;
        [| split; [eexists; reflexivity | split; reflexivity]].
      destruct (first_choice_content response) as [analysis | e]; simpl;
        split; first [eexists; reflexivity | split; reflexivity].
Qed.

Lemma result_has_one_text_block_witness :
  ∃ t, content (McpServer.catch_block offline (ServiceError "Connection error."))
       = [{| type := "text"; text := t |}].
Proof.
  destruct (result_has_one_text_block offline
              (Some (JObj [("data", query_result [echague] 1 1)]))
              (McpServer.catch_block offline (ServiceError "Connection error.")))
    as [H _].
  apply H. reflexivity.
Defined.

(** ** The counts of the metadata *)

Lemma count_permiso_ok (needle : string) (ests : list McpServer.estacionamiento) :
  Forall (λ e, permiso_has_includes e = true) ests →
  McpServer.count_permiso needle ests =
    Ok (List.length (List.filter (permiso_mentions needle) ests)).
Proof.
  induction 1 as [| e r He _ IH]; [reflexivity |].
  cbn [McpServer.count_permiso List.filter]. rewrite IH.
  unfold McpServer.permiso_includes, permiso_mentions, permiso_has_includes in *.
  destruct (acc_get (McpServer.detalles e) "permiso") as [[| | | s | l |] |];
    try discriminate He; simpl; try reflexivity.
  - destruct (includes needle s); reflexivity.
  - destruct (existsb _ l); reflexivity.
Qed.

Lemma count_permiso_throws (needle : string) (ests : list McpServer.estacionamiento) :
  Exists (λ e, permiso_has_includes e = false) ests →
  McpServer.count_permiso needle ests =
    Throw (TypeError (NotAFunction "e.detalles.permiso?.includes")).
Proof.
  induction ests as [| e r IH]; intros Hex; [inversion Hex |].
  cbn [McpServer.count_permiso].
  destruct (permiso_has_includes e) eqn:He.
  - rewrite IH by (inversion Hex; [congruence | assumption]).
    unfold McpServer.permiso_includes, permiso_has_includes in *.
    destruct (acc_get (McpServer.detalles e) "permiso") as [[| | | s | l |] |];
      try discriminate He; reflexivity.
  - unfold McpServer.permiso_includes, permiso_has_includes in *.
    destruct (acc_get (McpServer.detalles e) "permiso") as [[| | | s | l |] |];
      try discriminate He; reflexivity.
Qed.

(** X4. When the service answers and every [permiso] is absent, [null], a
    string or an array, the handler of [src/mcp-server.js] returns the
    analysis unflagged, with [totalEstacionamientos] equal to [data.total]
    as received and the two counts equal to the numbers of records whose
    [permiso] mentions PERMITIDO and PROHIBIDO; neither count exceeds the
    number of records. *)
Theorem analysis_with_counts (w : world) (input total : value)
    (ests : list McpServer.estacionamiento) (prompt : string) (response : JSON)
    (analysis : value) :
  McpServer.prepare input = Ok (Some (total, ests, prompt)) →
  completions_create w (McpServer.chat_request_of prompt) = Ok response →
  first_choice_content response = Ok analysis →
  Forall (λ e, permiso_has_includes e = true) ests →
  McpServer.handler w input =
    ([McpServer.chat_request_of prompt],
     Ok {| content := [{| type := "text"; text := analysis |}];
           metadata := Some {|
             totalEstacionamientos := total;
             estacionamientosPermitidos :=
               List.length (List.filter (permiso_mentions "PERMITIDO") ests);
             estacionamientosProhibidos :=
               List.length (List.filter (permiso_mentions "PROHIBIDO") ests) |};
           error := false |}) ∧
  (List.length (List.filter (permiso_mentions "PERMITIDO") ests) ≤ List.length ests)%nat ∧
  (List.length (List.filter (permiso_mentions "PROHIBIDO") ests) ≤ List.length ests)%nat.
Proof.
  intros Hprep Hcreate Hchoice Hall. split; [| split; apply filter_length_le].
  unfold McpServer.handler. rewrite Hprep. unfold McpServer.try_block.
  rewrite Hcreate, bind_Ok, Hchoice, bind_Ok, !(count_permiso_ok _ _ Hall). reflexivity.
Qed.

Lemma analysis_with_counts_witness :
  ∃ prompt,
    McpServer.handler (answering "Hay un lugar disponible.")
        (Some (JObj [("data", query_result [echague] 1 1)])) =
      ([McpServer.chat_request_of prompt],
       Ok {| content := [text_block "Hay un lugar disponible."];
             metadata := Some {| totalEstacionamientos := Some (JNum 1);
                                 estacionamientosPermitidos := 1;
                                 estacionamientosProhibidos := 0 |};
             error := false |}).
Proof.
  destruct (McpServer.prepare (Some (JObj [("data", query_result [echague] 1 1)])))
    as [[[[total ests] prompt] |] | e] eqn:Hprep; try discriminate Hprep.
  exists prompt.
  destruct (analysis_with_counts (answering "Hay un lugar disponible.")
              (Some (JObj [("data", query_result [echague] 1 1)]))
              total ests prompt
              (JObj [("choices", JArr [JObj [("message",
                 JObj [("role", JStr "assistant");
                       ("content", JStr "Hay un lugar disponible.")])]])])
              (Some (JStr "Hay un lugar disponible.")) Hprep)
    as (H & _ & _); [reflexivity | reflexivity | |].
  - injection Hprep as <- <- <-. repeat constructor.
  - rewrite H. injection Hprep as <- <- <-. reflexivity.
Defined.

(** X6. A [permiso] that is a number, a boolean or an object has no
    [includes]: although the service answered, computing the counts throws
    inside [try] and the handler of [src/mcp-server.js] returns the
    error-flagged result in place of the analysis. *)
Theorem unsearchable_permiso_discards_analysis (w : world) (input total : value)
    (ests : list McpServer.estacionamiento) (prompt : string) (response : JSON)
    (analysis : value) :
  McpServer.prepare input = Ok (Some (total, ests, prompt)) →
  completions_create w (McpServer.chat_request_of prompt) = Ok response →
  first_choice_content response = Ok analysis →
  Exists (λ e, permiso_has_includes e = false) ests →
  McpServer.handler w input =
    ([McpServer.chat_request_of prompt],
     Ok {| content := [text_block ("⚠️ Error al analizar los estacionamientos: " +:+
                         engine_message w (NotAFunction "e.detalles.permiso?.includes"))];
           metadata := None;
           error := true |}).
Proof.
  intros Hprep Hcreate Hchoice Hex.
  unfold McpServer.handler. rewrite Hprep. unfold McpServer.try_block.
  rewrite Hcreate, bind_Ok, Hchoice, bind_Ok, (count_permiso_throws "PERMITIDO" _ Hex).
  reflexivity.
Qed.

Lemma unsearchable_permiso_discards_analysis_witness :
  ∃ prompt,
    McpServer.handler (answering "Hay un lugar disponible.")
        (Some (JObj [("data", query_result
           [JObj [("contenido", JObj [("contenido", JArr [
              JObj [("nombreId", JStr "permiso"); ("valor", JNum 1)]])])]] 1 1)])) =
      ([McpServer.chat_request_of prompt],
       Ok {| content := [text_block ("⚠️ Error al analizar los estacionamientos: " +:+
                           "e.detalles.permiso?.includes is not a function")];
             metadata := None;
             error := true |}).
Proof.
  destruct (McpServer.prepare (Some (JObj [("data", query_result
           [JObj [("contenido", JObj [("contenido", JArr [
              JObj [("nombreId", JStr "permiso"); ("valor", JNum 1)]])])]] 1 1)])))
    as [[[[total ests] prompt] |] | e] eqn:Hprep; try discriminate Hprep.
  exists prompt.
  rewrite (unsearchable_permiso_discards_analysis (answering "Hay un lugar disponible.")
             _ total ests prompt
             (JObj [("choices", JArr [JObj [("message",
                JObj [("role", JStr "assistant");
                      ("content", JStr "Hay un lugar disponible.")])]])])
             (Some (JStr "Hay un lugar disponible.")) Hprep);
    [reflexivity | reflexivity | reflexivity |].
  injection Hprep as <- <- <-. left. reflexivity.
Defined.

(** X5. An answer of the service that holds no choice ([choices] missing
    or empty) is not an internal error: reading the first choice throws
    inside [try], and the handler of [src/mcp-server.js] returns the
    error-flagged result, which the route answers with 200. *)
Theorem answer_without_choice_is_flagged (w : world) (body input : JSON) (total : value)
    (ests : list McpServer.estacionamiento) (prompt : string) (response : JSON) :
  get (Some body) "input" = Ok (Some input) →
  lacks_data (Some input) = false →
  McpServer.prepare (Some input) = Ok (Some (total, ests, prompt)) →
  completions_create w (McpServer.chat_request_of prompt) = Ok response →
  get (Some response) "choices" = Ok None ∨
    get (Some response) "choices" = Ok (Some (JArr [])) →
  ∃ t,
    McpServer.handler w (Some input) =
      ([McpServer.chat_request_of prompt],
       Ok {| content := [text_block ("⚠️ Error al analizar los estacionamientos: " +:+
                                     engine_message w t)];
             metadata := None;
             error := true |}) ∧
    McpServer.post_mcp_tool McpServer.tools w "analizar-estacionamiento" body =
      ([HandlerInvoked "analizar-estacionamiento";
        CompletionCall (McpServer.chat_request_of prompt)],
       Respond 200 (JObj [
         ("success", JBool true);
         ("content", JArr [JObj [
            ("type", JStr "text");
            ("text", JStr ("⚠️ Error al analizar los estacionamientos: " +:+
                           engine_message w t))]]);
         ("error", JBool true)])).
Proof.
  intros Hbody Hdata Hprep Hcreate Hchoices.
  assert (Hthrow : ∃ t, first_choice_content response = Throw (TypeError t)).
  { unfold first_choice_content.
    destruct Hchoices as [-> | ->]; eexists; reflexivity. }
  destruct Hthrow as [t Ht]. exists t.
  assert (H : McpServer.handler w (Some input) =
    ([McpServer.chat_request_of prompt], Ok (McpServer.catch_block w (TypeError t)))).
  { unfold McpServer.handler. rewrite Hprep. unfold McpServer.try_block.
    rewrite Hcreate, bind_Ok, Ht. reflexivity. }
  split; [exact H |].
  unfold McpServer.post_mcp_tool. rewrite Hbody, Hdata. simpl. rewrite H. reflexivity.
Qed.

Lemma answer_without_choice_is_flagged_witness :
  ∃ t prompt,
    McpServer.handler
        {| completions_create := λ _, Ok (JObj [("choices", JArr [])]);
           engine_message := v8_message;
           stack := λ _, None;
           NODE_ENV := None |}
        (Some (JObj [("data", query_result [echague] 1 1)])) =
      ([McpServer.chat_request_of prompt],
       Ok {| content := [text_block ("⚠️ Error al analizar los estacionamientos: " +:+
                                     v8_message t)];
             metadata := None;
             error := true |}).
Proof.
  destruct (McpServer.prepare (Some (JObj [("data", query_result [echague] 1 1)])))
    as [[[[total ests] prompt] |] | e] eqn:Hprep; try discriminate Hprep.
  destruct (answer_without_choice_is_flagged
              {| completions_create := λ _, Ok (JObj [("choices", JArr [])]);
                 engine_message := v8_message;
                 stack := λ _, None;
                 NODE_ENV := None |}
              (request_body (query_result [echague] 1 1))
              (JObj [("data", query_result [echague] 1 1)])
              total ests prompt (JObj [("choices", JArr [])]))
    as (t & H & _);
    [reflexivity | reflexivity | exact Hprep | reflexivity | right; reflexivity |].
  exists t, prompt. exact H.
Defined.

(** ** The shape of the prompt *)

Lemma append_assoc (a b c : string) : (a +:+ b) +:+ c = a +:+ (b +:+ c).
Proof.
  induction a as [| x a IH]; [reflexivity |].
  change (String x ((a +:+ b) +:+ c) = String x (a +:+ (b +:+ c))).
  f_equal. exact IH.
Qed.

Lemma substring_here (n b : string) : substring n (n +:+ b).
Proof. exists "", b. reflexivity. Qed.

Lemma substring_skip (a n b : string) : substring n b → substring n (a +:+ b).
Proof.
  intros (pre & post & ->). exists (a +:+ pre), post. symmetry. apply append_assoc.
Qed.

Lemma substring_trans (a b c : string) : substring a b → substring b c → substring a c.
Proof.
  intros (p1 & q1 & ->) (p2 & q2 & ->).
  exists (p2 +:+ p1), (q1 +:+ q2). rewrite !append_assoc. reflexivity.
Qed.

Lemma substring_join_empty (b : string) (bs : list string) :
  b ∈ bs → substring b (join_empty bs).
Proof.
  induction 1 as [b r | b x r _ IH]; cbn [join_empty foldr].
  - apply substring_here.
  - apply substring_skip, IH.
Qed.

Ltac find_substring :=
  solve [repeat first [apply substring_here | apply substring_skip]].

Lemma mapiM_from_lookup {A B} (f : nat → A → result B) (l : list A) (i : nat)
    (bs : list B) :
  mapiM_from i f l = Ok bs →
  List.length bs = List.length l ∧
  ∀ j x, l !! j = Some x → ∃ b, bs !! j = Some b ∧ f (i + j)%nat x = Ok b.
Proof.
  revert i bs. induction l as [| x r IH]; intros i bs; simpl.
  - intros H. injection H as <-. split; [reflexivity | intros j y Hj; discriminate Hj].
  - destruct (f i x) as [b | e] eqn:Hb; [| discriminate]. rewrite bind_Ok.
    destruct (mapiM_from (S i) f r) as [bs' | e] eqn:Hr; [| discriminate].
    rewrite bind_Ok. intros H. injection H as <-.
    destruct (IH _ _ Hr) as [Hlen Hlook]. split; [simpl; rewrite Hlen; reflexivity |].
    intros [| j] y Hj; simpl in Hj.
    + injection Hj as <-. exists b. rewrite Nat.add_0_r. split; [reflexivity | exact Hb].
    + destruct (Hlook j y Hj) as (b' & Hb' & Hf). exists b'.
      split; [exact Hb' |]. rewrite <- Hf. f_equal. lia.
Qed.

Lemma mapM_lookup {A B} (f : A → result B) (l : list A) (ys : list B) :
  mapM f l = Ok ys →
  List.length ys = List.length l ∧
  ∀ j x, l !! j = Some x → ∃ y, ys !! j = Some y ∧ f x = Ok y.
Proof.
  revert ys. induction l as [| x r IH]; intros ys; simpl.
  - intros H. injection H as <-. split; [reflexivity | intros j y Hj; discriminate Hj].
  - destruct (f x) as [y | e] eqn:Hy; [| discriminate]. rewrite bind_Ok.
    destruct (mapM f r) as [ys' | e] eqn:Hr; [| discriminate].
    rewrite bind_Ok. intros H. injection H as <-.
    destruct (IH _ eq_refl) as [Hlen Hlook]. split; [simpl; rewrite Hlen; reflexivity |].
    intros [| j] z Hj; simpl in Hj.
    + injection Hj as <-. exists y. split; [reflexivity | exact Hy].
    + apply (Hlook j z Hj).
Qed.

Lemma render_block_inv (i : nat) (e : McpServer.estacionamiento) (b : string) :
  McpServer.render_block i e = Ok b →
  ∃ s_calle s_altura s_lado s_permiso s_horario s_distancia,
    to_string (McpServer.calle e) = Ok s_calle ∧
    to_string (McpServer.altura e) = Ok s_altura ∧
    to_string (McpServer.lado e) = Ok s_lado ∧
    to_string (McpServer.permiso e) = Ok s_permiso ∧
    to_string (McpServer.horario e) = Ok s_horario ∧
    to_string (McpServer.distancia e) = Ok s_distancia ∧
    b = mcp_block i s_calle s_altura s_lado s_permiso s_horario s_distancia.
Proof.
  unfold McpServer.render_block.
  destruct (to_string (McpServer.calle e)) as [s1 | ?]; [| discriminate].
  destruct (to_string (McpServer.altura e)) as [s2 | ?]; [| discriminate].
  destruct (to_string (McpServer.lado e)) as [s3 | ?]; [| discriminate].
  destruct (to_string (McpServer.permiso e)) as [s4 | ?]; [| discriminate].
  destruct (to_string (McpServer.horario e)) as [s5 | ?]; [| discriminate].
  destruct (to_string (McpServer.distancia e)) as [s6 | ?]; [| discriminate].
  rewrite !bind_Ok. intros H. injection H as <-.
  exists s1, s2, s3, s4, s5, s6. repeat split; reflexivity.
Qed.

Lemma build_prompt_inv (total totalFull : value)
    (ests : list McpServer.estacionamiento) (p : string) :
  McpServer.build_prompt total totalFull ests = Ok p →
  ∃ s_total s_totalFull blocks,
    to_string_value total = Ok s_total ∧
    to_string_value totalFull = Ok s_totalFull ∧
    mapiM_from 0 McpServer.render_block ests = Ok blocks ∧
    p = mcp_prompt s_total s_totalFull blocks.
Proof.
  unfold McpServer.build_prompt.
  destruct (to_string_value total) as [s1 | ?]; [| discriminate].
  destruct (to_string_value totalFull) as [s2 | ?]; [| discriminate].
  rewrite !bind_Ok.
  destruct (mapiM_from 0 McpServer.render_block ests) as [blocks | ?]; [| discriminate].
  rewrite bind_Ok. intros H. injection H as <-.
  exists s1, s2, blocks. repeat split; reflexivity.
Qed.

Lemma block_in_prompt (s_total s_totalFull b : string) (blocks : list string) :
  b ∈ blocks → substring b (mcp_prompt s_total s_totalFull blocks).
Proof.
  intros Hin. unfold mcp_prompt. do 5 apply substring_skip.
  apply (substring_trans _ (join_empty blocks)); [| apply substring_here].
  apply substring_join_empty, Hin.
Qed.

(** X7. A prompt that is built holds the two counts as received
    ([undefined] when absent, no comparison between them) and, between the
    fixed heading and the fixed instructions, one block per record: the
    record at position [i] (from 0) gives the block numbered [i + 1] made
    of the texts of its six fields, and that block occurs in the prompt. *)
Theorem prompt_holds_every_block (total totalFull : value)
    (ests : list McpServer.estacionamiento) (p : string) :
  McpServer.build_prompt total totalFull ests = Ok p →
  ∃ s_total s_totalFull blocks,
    to_string_value total = Ok s_total ∧
    to_string_value totalFull = Ok s_totalFull ∧
    List.length blocks = List.length ests ∧
    p = mcp_prompt s_total s_totalFull blocks ∧
    ∀ i e, ests !! i = Some e →
      ∃ s_calle s_altura s_lado s_permiso s_horario s_distancia,
        to_string (McpServer.calle e) = Ok s_calle ∧
        to_string (McpServer.altura e) = Ok s_altura ∧
        to_string (McpServer.lado e) = Ok s_lado ∧
        to_string (McpServer.permiso e) = Ok s_permiso ∧
        to_string (McpServer.horario e) = Ok s_horario ∧
        to_string (McpServer.distancia e) = Ok s_distancia ∧
        blocks !! i = Some (mcp_block i s_calle s_altura s_lado s_permiso s_horario s_distancia) ∧
        substring (mcp_block i s_calle s_altura s_lado s_permiso s_horario s_distancia) p.
Proof.
  intros Hp.
  destruct (build_prompt_inv _ _ _ _ Hp) as (s1 & s2 & blocks & H1 & H2 & Hb & ->).
  destruct (mapiM_from_lookup _ _ _ _ Hb) as [Hlen Hlook].
  exists s1, s2, blocks. repeat split; try assumption; try reflexivity.
  intros i e Hi. destruct (Hlook i e Hi) as (b & Hbi & Hr). simpl in Hr.
  destruct (render_block_inv i e b Hr)
    as (c1 & c2 & c3 & c4 & c5 & c6 & Hc1 & Hc2 & Hc3 & Hc4 & Hc5 & Hc6 & ->).
  exists c1, c2, c3, c4, c5, c6. repeat split; try assumption.
  apply block_in_prompt, list_elem_of_lookup. eauto.
Qed.

Lemma prompt_holds_every_block_witness :
  ∃ s_total s_totalFull blocks,
    to_string_value (Some (JNum 7)) = Ok s_total ∧
    to_string_value None = Ok s_totalFull ∧
    List.length blocks = 1%nat ∧
    mcp_prompt "7" "undefined"
      [mcp_block 0 "Calle no especificada" "S/N" "" "Sin datos" "Sin horario" "N/D"]
    = mcp_prompt s_total s_totalFull blocks.
Proof.
  destruct (prompt_holds_every_block (Some (JNum 7)) None
              [{| McpServer.est_props := []; McpServer.detalles := empty_object |}]
              (mcp_prompt "7" "undefined"
                 [mcp_block 0 "Calle no especificada" "S/N" "" "Sin datos" "Sin horario" "N/D"]))
    as (s1 & s2 & blocks & H1 & H2 & Hlen & Hp & _); [reflexivity |].
  exists s1, s2, blocks. auto.
Defined.

Lemma mcp_prepare_inv (input total : value) (ests : list McpServer.estacionamiento)
    (prompt : string) :
  McpServer.prepare input = Ok (Some (total, ests, prompt)) →
  ∃ data instancias totalFull,
    get input "data" = Ok data ∧
    get data "instancias" = Ok instancias ∧
    no_instancias instancias = false ∧
    McpServer.estacionamientos instancias = Ok ests ∧
    get data "total" = Ok total ∧
    get data "totalFull" = Ok totalFull ∧
    McpServer.build_prompt total totalFull ests = Ok prompt.
Proof.
  unfold McpServer.prepare.
  destruct (get input "data") as [data | ?] eqn:Hd; [| discriminate]. rewrite bind_Ok.
  destruct (get data "instancias") as [instancias | ?] eqn:Hi; [| discriminate].
  rewrite bind_Ok.
  destruct (no_instancias instancias) eqn:Hno; [discriminate |].
  destruct (McpServer.estacionamientos instancias) as [ests' | ?] eqn:He; [| discriminate].
  rewrite bind_Ok.
  destruct (get data "total") as [total' | ?] eqn:Ht; [| discriminate]. rewrite bind_Ok.
  destruct (get data "totalFull") as [totalFull | ?] eqn:Hf; [| discriminate].
  rewrite bind_Ok.
  destruct (McpServer.build_prompt total' totalFull ests') as [prompt' | ?] eqn:Hp;
    [| discriminate].
  rewrite bind_Ok. intros H. injection H as <- <- <-.
  exists data, instancias, totalFull. auto 10.
Qed.

(** What normalization makes of a nested instance with well-formed pairs:
    each attribute read is the last value of its id. *)
Lemma normalize_encoded (est c : JSON) (items : list JSON) (attrs : list (string * JSON))
    (e : McpServer.estacionamiento) :
  get (Some est) "contenido" = Ok (Some c) →
  get (Some c) "contenido" = Ok (Some (JArr items)) →
  Forall2 encodes items attrs →
  Forall (λ a, relinks_prototype a = false) attrs →
  McpServer.normalize est = Ok e →
  (∀ k, k ≠ "__proto__" → acc_get (McpServer.detalles e) k = last_valor k attrs) ∧
  Ok (assoc "distancia" (McpServer.est_props e)) = get (Some est) "distancia".
Proof.
  intros Hc Hitems Henc Hre.
  destruct (acc_get_reduce_encoded items attrs Henc Hre) as (acc & Hred & Hget).
  unfold McpServer.normalize, McpServer.contenido_reduce.
  rewrite Hc, bind_Ok, Hitems, bind_Ok, Hred, bind_Ok.
  intros H. injection H as <-. split; [exact Hget |].
  destruct est; try discriminate Hc. reflexivity.
Qed.

(** X8. End to end in [src/mcp-server.js]: when the prompt is built, the
    instance at position [i] of [instancias] whose attribute array holds
    well-formed pairs with a non-empty string as last [calle] is printed
    as "📍 i+1. calle " in the prompt. *)
Theorem street_is_printed_at_its_number (input data total : value)
    (ests : list McpServer.estacionamiento) (prompt : string)
    (l : list JSON) (i : nat) (est c : JSON) (items : list JSON)
    (attrs : list (string * JSON)) (s : string) :
  McpServer.prepare input = Ok (Some (total, ests, prompt)) →
  get input "data" = Ok data →
  get data "instancias" = Ok (Some (JArr l)) →
  l !! i = Some est →
  get (Some est) "contenido" = Ok (Some c) →
  get (Some c) "contenido" = Ok (Some (JArr items)) →
  Forall2 encodes items attrs →
  Forall (λ a, relinks_prototype a = false) attrs →
  last_valor "calle" attrs = Some (JStr s) →
  s ≠ "" →
  substring ("📍 " +:+ string_of_Z (Z.of_nat i + 1) +:+ ". " +:+ s +:+ " ") prompt.
Proof.
  intros Hprep Hdata Hinst Hi Hc Hitems Henc Hre Hcalle Hs.
  destruct (mcp_prepare_inv _ _ _ _ Hprep)
    as (data' & inst' & totalFull & Hd' & Hi' & _ & Hests & _ & _ & Hp).
  rewrite Hdata in Hd'. injection Hd' as <-.
  rewrite Hinst in Hi'. injection Hi' as <-.
  destruct (mapM_lookup _ _ _ Hests) as [_ Hlook].
  destruct (Hlook i est Hi) as (e & Hei & Hnorm).
  destruct (normalize_encoded est c items attrs e Hc Hitems Henc Hre Hnorm) as [Hget _].
  destruct (build_prompt_inv _ _ _ _ Hp) as (s1 & s2 & blocks & _ & _ & Hb & ->).
  destruct (mapiM_from_lookup _ _ _ _ Hb) as [_ Hblocks].
  destruct (Hblocks i e Hei) as (b & Hbi & Hr). simpl in Hr.
  destruct (render_block_inv i e b Hr) as (c1 & c2 & c3 & c4 & c5 & c6 & H1 & _ & _ & _ & _ & _ & ->).
  assert (Hsub : substring (mcp_block i c1 c2 c3 c4 c5 c6) (mcp_prompt s1 s2 blocks)).
  { apply block_in_prompt, list_elem_of_lookup. eauto. }
  assert (Hc1 : c1 = s).
  { unfold McpServer.calle in H1. rewrite (Hget "calle"), Hcalle in H1 by discriminate.
    unfold or_default in H1. simpl in H1.
    apply String.eqb_neq in Hs. rewrite Hs in H1. simpl in H1. congruence. }
  subst c1. apply (substring_trans _ (mcp_block i s c2 c3 c4 c5 c6)); [| exact Hsub].
  unfold mcp_block.
  exists nl, (c2 +:+ " (" +:+ c3 +:+ ")" +:+ nl +:+ "- Tipo: " +:+ c4 +:+ nl +:+
              "- Horario: " +:+ c5 +:+ nl +:+ "- Distancia: " +:+ c6 +:+ " metros" +:+ nl).
  vm_compute nl. rewrite !append_assoc. reflexivity.
Qed.

Lemma street_is_printed_at_its_number_witness :
  ∃ total ests prompt,
    McpServer.prepare (Some (JObj [("data", query_result [echague] 1 1)]))
      = Ok (Some (total, ests, prompt)) ∧
    substring ("📍 " +:+ string_of_Z (Z.of_nat 0 + 1) +:+ ". " +:+ "ECHAGUE, PEDRO" +:+ " ")
      prompt.
Proof.
  destruct (McpServer.prepare (Some (JObj [("data", query_result [echague] 1 1)])))
    as [[[[total ests] prompt] |] | e] eqn:Hprep; try discriminate Hprep.
  exists total, ests, prompt. split; [reflexivity |].
  apply (street_is_printed_at_its_number
           (Some (JObj [("data", query_result [echague] 1 1)]))
           (Some (query_result [echague] 1 1)) total ests prompt
           [echague] 0 echague
           (JObj [("contenido", JArr [
              attribute "calle" "ECHAGUE, PEDRO"; attribute "altura" "1301-1400";
              attribute "permiso" "PERMITIDO ESTACIONAR"; attribute "horario" "24 HORAS";
              attribute "lado" "derecho"])])
           [attribute "calle" "ECHAGUE, PEDRO"; attribute "altura" "1301-1400";
            attribute "permiso" "PERMITIDO ESTACIONAR"; attribute "horario" "24 HORAS";
            attribute "lado" "derecho"]
           [("calle", JStr "ECHAGUE, PEDRO"); ("altura", JStr "1301-1400");
            ("permiso", JStr "PERMITIDO ESTACIONAR"); ("horario", JStr "24 HORAS");
            ("lado", JStr "derecho")]
           "ECHAGUE, PEDRO" Hprep);
    try reflexivity; try discriminate; repeat constructor.
Defined.



Lemma fold_item_ok_iff (acc : js_object) (item : JSON) :
  (∃ acc', McpServer.fold_item acc item = Ok acc') ↔ ∃ k, item_key item = Ok k.
Proof.
  unfold McpServer.fold_item, item_key.
  destruct item as [| b | n | s | l | props]; simpl;
    try (split; intros [x H]; discriminate H);
    try (split; intros _; eexists; reflexivity).
  destruct (to_property_key (assoc "nombreId" props)) as [k | e]; simpl.
  - split; intros _; eexists; reflexivity.
  - split; intros [x H]; discriminate H.
Qed.

Lemma reduce_fold_item_ok_iff (items : list JSON) (acc0 : js_object) :
  (∃ acc, reduce McpServer.fold_item items acc0 = Ok acc) ↔
  Forall (λ it, ∃ k, item_key it = Ok k) items.
Proof.
  revert acc0. induction items as [| it r IH]; intros acc0; cbn [reduce].
  - split; [constructor | eauto].
  - rewrite Forall_cons, <- (fold_item_ok_iff acc0 it). split.
    + intros [acc H]. destruct (McpServer.fold_item acc0 it) as [a | e]; [| discriminate H].
      split; [eauto |]. apply (IH a). eauto.
    + intros [[a Ha] Hr]. rewrite Ha, bind_Ok. apply IH, Hr.
Qed.

(** X12. The fold of an attribute array fails exactly when one of its
    items has no property key, that is when an item is [null] or its
    [nombreId] converts to no string; items of any other shape (numbers,
    strings, objects without [nombreId]) are folded. *)
Theorem fold_succeeds_iff_keys (items : list JSON) (acc0 : js_object) :
  ((∃ acc, reduce McpServer.fold_item items acc0 = Ok acc) ↔
     Forall (λ it, ∃ k, item_key it = Ok k) items) ∧
  (∀ it, (∃ k, item_key it = Ok k) ↔
         it ≠ JNull ∧ ∃ nombreId k, get (Some it) "nombreId" = Ok nombreId ∧
                                    to_string_value nombreId = Ok k).
Proof.
  split; [apply reduce_fold_item_ok_iff |].
  - intros it. unfold item_key, to_property_key. split.
    + intros [k H]. split; [intros ->; discriminate H |].
      destruct (get (Some it) "nombreId") as [v | e]; [| discriminate H]. eauto.
    + intros (_ & v & k & Hv & Hk). exists k. rewrite Hv. exact Hk.
Qed.

(** X13. An [instancias] that is truthy, of non-zero [length] and not an
    array (a non-empty string, a number, [true], an object) passes the
    guard and has no [map]: both handlers throw a [TypeError] before any
    completion call and both routes answer 500. *)
Theorem non_array_instancias_is_500 (w : world) (body input data j : JSON) :
  get (Some body) "input" = Ok (Some input) →
  get (Some input) "data" = Ok (Some data) →
  get (Some data) "instancias" = Ok (Some j) →
  truthy (Some j) = true →
  length_is_zero j = false →
  (∀ l, j ≠ JArr l) →
  McpServer.handler w (Some input) =
    ([], Throw (TypeError (NotAFunction "data.instancias.map"))) ∧
  McpServer.post_mcp_tool McpServer.tools w "analizar-estacionamiento" body =
    ([HandlerInvoked "analizar-estacionamiento"],
     Respond 500 (JObj (
       [("error", JStr "Error interno al procesar la solicitud");
        ("detalle", JStr (engine_message w (NotAFunction "data.instancias.map")))] ++
       (if bool_decide (NODE_ENV w = Some "development")
        then prop "stack" (stack w (TypeError (NotAFunction "data.instancias.map")))
        else [])))) ∧
  ∃ t,
    Part000.handler w (Some input) = ([], Throw (TypeError t)) ∧
    Part000.post_mcp_tool Part000.tools w "analizar-estacionamiento" body =
      ([HandlerInvoked "analizar-estacionamiento"],
       Respond 500 (JObj [
         ("error", JStr "Error interno al procesar la solicitud");
         ("detalle", JStr (engine_message w t))])).
Proof.
  intros Hbody Hinput Hinst Htruthy Hlen Harr.
  assert (Hguard : no_instancias (Some j) = false).
  { unfold no_instancias. rewrite Htruthy. exact Hlen. }
  assert (Hdata : lacks_data (Some input) = false).
  { apply (lacks_data_false _ _ Hinput (get_Some_truthy _ _ _ Hinst)). }
  assert (H1 : McpServer.handler w (Some input) =
                 ([], Throw (TypeError (NotAFunction "data.instancias.map")))).
  { unfold McpServer.handler, McpServer.prepare.
    rewrite Hinput, bind_Ok, Hinst, bind_Ok, Hguard.
    destruct j as [| b | n | s | l | props]; try reflexivity; try discriminate Htruthy.
    exfalso. apply (Harr l). reflexivity. }
  assert (H2 : ∃ t, Part000.handler w (Some input) = ([], Throw (TypeError t))).
  { assert (Hp : ∃ e, Part000.prepare (Some input) = Throw e).
    { unfold Part000.prepare. rewrite Hinput, bind_Ok, Hinst, bind_Ok, Hguard.
      destruct (get (Some data) "total") as [total | e]; [| eexists; reflexivity].
      destruct (get (Some data) "totalFull") as [totalFull | e]; [| eexists; reflexivity].
      rewrite !bind_Ok. unfold Part000.build_prompt.
      destruct (to_string_value total) as [s1 | e]; [| eexists; reflexivity].
      destruct (to_string_value totalFull) as [s2 | e]; [| eexists; reflexivity].
      rewrite !bind_Ok.
      destruct j as [| b | n | s | l | props]; try (eexists; reflexivity).
      exfalso. apply (Harr l). reflexivity. }
    destruct Hp as [e He].
    destruct (is_TypeError_inv e (only_TypeError_part000_prepare _ e He)) as [t ->].
    exists t. unfold Part000.handler. rewrite He. reflexivity. }
  split; [exact H1 |]. split.
  - unfold McpServer.post_mcp_tool. rewrite Hbody, Hdata. simpl. rewrite H1. reflexivity.
  - destruct H2 as [t H2]. exists t. split; [exact H2 |].
    unfold Part000.post_mcp_tool. rewrite Hbody, Hdata. simpl. rewrite H2. reflexivity.
Qed.

Lemma non_array_instancias_is_500_witness :
  McpServer.handler offline (Some (JObj [("data", JObj [("instancias", JStr "ninguna")])])) =
    ([], Throw (TypeError (NotAFunction "data.instancias.map"))).
Proof.
  apply (non_array_instancias_is_500 offline
           (request_body (JObj [("instancias", JStr "ninguna")]))
           (JObj [("data", JObj [("instancias", JStr "ninguna")])])
           (JObj [("instancias", JStr "ninguna")])
           (JStr "ninguna"));
    try reflexivity.
  intros l H. discriminate H.
Defined.

Lemma mapiM_from_throws {A B} (f : nat → A → result B) (l : list A) (x : A) (i : nat) :
  x ∈ l → (∀ j, ∃ e, f j x = Throw e) → ∃ e, mapiM_from i f l = Throw e.
Proof.
  intros Hin Hx. revert i. induction Hin as [x r | x y r Hin IH]; intros i.
  - destruct (Hx i) as [e He]. exists e. simpl. rewrite He. reflexivity.
  - destruct (IH Hx (S i)) as [e' He']. simpl. rewrite He'.
    destruct (f i y); eexists; reflexivity.
Qed.

Lemma part000_default_blocks_from (l : list JSON) (i : nat) :
  Forall supplies_no_flat_field l →
  mapiM_from i Part000.render_block l =
    Ok (imap (λ j _, part000_default_block (i + j)) l).
Proof.
  intros Hall. revert i. induction Hall as [| est r (H1 & H2 & H3 & H4 & H5) _ IH]; intros i.
  - reflexivity.
  - cbn [mapiM_from imap]. rewrite (IH (S i)).
    assert (Hb : Part000.render_block i est = Ok (part000_default_block (i + 0))).
    { unfold Part000.render_block, Part000.field.
      rewrite H1, H2, H3, H4, H5, Nat.add_0_r. reflexivity. }
    rewrite Hb, !bind_Ok. do 2 f_equal.
    apply imap_ext. intros j x _. simpl. f_equal. lia.
Qed.

(** X14. The flat prompt of [src/unnamed/part_000] rejects no element of
    [instancias] but [null]: when every element supplies none of [nombre],
    [domicilio], [tarifa], [capacidad], [disponibles] (nested-variant
    instances, numbers, strings, arrays), the blocks are the all-default
    block of each position, numbered from 1; with a [null] element the
    rendering throws a [TypeError]. *)
Theorem part000_blocks_of_foreign_instances (l : list JSON) :
  (Forall supplies_no_flat_field l →
   Part000.blocks (Some (JArr l)) = Ok (imap (λ i _, part000_default_block i) l)) ∧
  (JNull ∈ l → ∃ t, Part000.blocks (Some (JArr l)) = Throw (TypeError t)).
Proof.
  split.
  - intros Hall. unfold Part000.blocks. apply (part000_default_blocks_from l 0 Hall).
  - intros Hin. unfold Part000.blocks.
    destruct (mapiM_from_throws Part000.render_block l JNull 0 Hin) as [e He].
    { intros j. eexists. reflexivity. }
    destruct (is_TypeError_inv e) as [t ->]; [| eauto].
    apply (only_TypeError_mapiM_from Part000.render_block l 0); [| exact He].
    intros j x. unfold Part000.render_block, Part000.field. only_TypeError.
Qed.

Lemma part000_blocks_of_foreign_instances_witness :
  Part000.blocks (Some (JArr [echague; JNum 7])) =
    Ok [part000_default_block 0; part000_default_block 1] ∧
  ∃ t, Part000.blocks (Some (JArr [garage; JNull])) = Throw (TypeError t).
Proof.
  split.
  - apply (part000_blocks_of_foreign_instances [echague; JNum 7]).
    repeat constructor.
  - apply (part000_blocks_of_foreign_instances [garage; JNull]).
    right. left.
Defined.

(** X16. [/health] and the POST route agree on the registry: for a request
    that passes the payload guard, the tool name is among the names
    [/health] lists exactly when the route does not answer 404. *)
Theorem health_lists_the_dispatchable_tools (tools : list (string * handler_type))
    (w : world) (p : process_info) (toolName : string) (body : JSON) (input : value) :
  get (Some body) "input" = Ok input →
  lacks_data input = false →
  (JStr toolName ∈ listed_tools (mcp_health tools w p) ↔
     status_of (snd (McpServer.post_mcp_tool tools w toolName body)) ≠ Some 404%Z) ∧
  (JStr toolName ∈ listed_tools (part000_health tools p) ↔
     status_of (snd (Part000.post_mcp_tool tools w toolName body)) ≠ Some 404%Z).
Proof.
  intros Hin Hdata.
  assert (Hlisted : JStr toolName ∈ (JStr <$> tools_keys tools) ↔
                    tools_get tools toolName ≠ None).
  { rewrite tools_get_None. split.
    - intros H Hnot. apply Hnot. apply list_elem_of_fmap in H as (n & Hn & Hin').
      injection Hn as ->. exact Hin'.
    - intros H. destruct (decide (toolName ∈ tools_keys tools)) as [Hyes | Hno].
      + apply list_elem_of_fmap. eauto.
      + contradiction. }
  change (listed_tools (mcp_health tools w p)) with (JStr <$> tools_keys tools).
  change (listed_tools (part000_health tools p)) with (JStr <$> tools_keys tools).
  rewrite Hlisted. split.
  - destruct (mcp_route_cases tools w toolName body input Hin)
      as [(Hl & _) | [(_ & Hnone & b & ->) | (h & _ & Hh & [(r & _ & ->) | (e & b & _ & ->)])]].
    + congruence.
    + rewrite Hnone. simpl. split; intros H; contradiction.
    + rewrite Hh. simpl. split; intros _; discriminate.
    + rewrite Hh. simpl. split; intros _; discriminate.
  - destruct (part000_route_cases tools w toolName body input Hin)
      as [(Hl & _) | [(_ & Hnone & b & ->) | (h & _ & Hh & [(r & _ & ->) | (e & b & _ & ->)])]].
    + congruence.
    + rewrite Hnone. simpl. split; intros H; contradiction.
    + rewrite Hh. simpl. split; intros _; discriminate.
    + rewrite Hh. simpl. split; intros _; discriminate.
Qed.

Lemma health_lists_the_dispatchable_tools_witness :
  JStr "analizar-estacionamiento" ∈
    listed_tools (mcp_health McpServer.tools offline
                    {| timestamp := "2025-01-01T00:00:00.000Z";
                       uptime := JNum 12; memoryUsage := JObj [] |}) ↔
  status_of (snd (McpServer.post_mcp_tool McpServer.tools offline "analizar-estacionamiento"
                    (request_body (query_result [] 0 0)))) ≠ Some 404%Z.
Proof.
  apply (health_lists_the_dispatchable_tools McpServer.tools offline
           {| timestamp := "2025-01-01T00:00:00.000Z";
              uptime := JNum 12; memoryUsage := JObj [] |}
           "analizar-estacionamiento"
           (request_body (query_result [] 0 0))
           (Some (JObj [("data", query_result [] 0 0)])));
    reflexivity.
Defined.

(** X17. The request bodies the server itself documents are accepted by
    its POST route in every world: the example of the 400 answer gets the
    early 200 answer without any completion call, and the body shown by
    [/ejemplo] is normalized, rendered (its street is in the prompt) and
    sent to the service once, the answer being 200. *)
Theorem documented_examples_are_accepted (w : world) :
  McpServer.post_mcp_tool McpServer.tools w "analizar-estacionamiento" McpServer.ejemplo =
    ([HandlerInvoked "analizar-estacionamiento"],
     Respond 200 (JObj (("success", JBool true) ::
                        props_of_result McpServer.no_encontrados))) ∧
  ∃ prompt b,
    McpServer.post_mcp_tool McpServer.tools w "analizar-estacionamiento" ejemplo_body =
      ([HandlerInvoked "analizar-estacionamiento";
        CompletionCall (McpServer.chat_request_of prompt)],
       Respond 200 b) ∧
    substring "ECHAGUE, PEDRO" prompt.
Proof.
  split; [reflexivity |].
  destruct (get (Some ejemplo_body) "input") as [[input |] | ?] eqn:Hbody;
    try discriminate Hbody.
  assert (Hdata : lacks_data (Some input) = false).
  { injection Hbody as <-. reflexivity. }
  destruct (McpServer.prepare (Some input)) as [[[[total ests] prompt] |] | e] eqn:Hprep;
    try (injection Hbody as <-; discriminate Hprep).
  exists prompt. eexists. split.
  - unfold McpServer.post_mcp_tool. rewrite Hbody, Hdata. simpl.
    unfold McpServer.handler. rewrite Hprep. reflexivity.
  - apply includes_substring. injection Hbody as <-. injection Hprep as _ _ <-.
    vm_compute. reflexivity.
Qed.

(** X18. The 500 answer of [src/mcp-server.js] carries [stack] only when
    [NODE_ENV] is "development" (and the error has a stack); the 500
    answer of [src/unnamed/part_000] never carries it. In both, [error]
    is the fixed text. *)
Theorem stack_only_in_development (tools : list (string * handler_type)) (w : world)
    (toolName : string) (body b : JSON) :
  (snd (McpServer.post_mcp_tool tools w toolName body) = Respond 500 b →
     ∃ e,
       b = JObj ([("error", JStr "Error interno al procesar la solicitud");
                  ("detalle", JStr (message w e))] ++
                 (if bool_decide (NODE_ENV w = Some "development")
                  then prop "stack" (stack w e) else [])) ∧
       (NODE_ENV w ≠ Some "development" →
          b = JObj [("error", JStr "Error interno al procesar la solicitud");
                    ("detalle", JStr (message w e))])) ∧
  (snd (Part000.post_mcp_tool tools w toolName body) = Respond 500 b →
     ∃ e, b = JObj [("error", JStr "Error interno al procesar la solicitud");
                    ("detalle", JStr (message w e))]).
Proof.
  split.
  - unfold McpServer.post_mcp_tool.
    destruct (get (Some body) "input") as [input | ?]; [| discriminate].
    destruct (lacks_data input); [discriminate |].
    destruct (tools_get tools toolName) as [h |]; [| discriminate].
    destruct (h w input) as [calls [r | e]]; simpl; [discriminate |].
    intros H. injection H as <-. exists e. split; [reflexivity |].
    intros Hne. rewrite bool_decide_eq_false_2 by exact Hne. reflexivity.
  - unfold Part000.post_mcp_tool.
    destruct (get (Some body) "input") as [input | ?]; [| discriminate].
    destruct (lacks_data input); [discriminate |].
    destruct (tools_get tools toolName) as [h |]; [| discriminate].
    destruct (h w input) as [calls [r | e]]; simpl; [discriminate |].
    intros H. injection H as <-. exists e. reflexivity.
Qed.

Lemma stack_only_in_development_witness :
  ∃ e,
    JObj [("error", JStr "Error interno al procesar la solicitud");
          ("detalle", JStr "Cannot read properties of undefined (reading 'contenido')")]
    = JObj [("error", JStr "Error interno al procesar la solicitud");
            ("detalle", JStr (message offline e))].
Proof.
  destruct (stack_only_in_development McpServer.tools offline "analizar-estacionamiento"
              (request_body (query_result [echague_flat] 1 1))
              (JObj [("error", JStr "Error interno al procesar la solicitud");
                     ("detalle", JStr "Cannot read properties of undefined (reading 'contenido')")]))
    as [H _].
  destruct (H eq_refl) as (e & _ & He). exists e. apply He. discriminate.
Defined.



(** X9. Normalization keeps the instances in order and whole: when it
    succeeds there is one record per instance, the record at a position
    holds every own property of the instance at that position, and its
    [detalles] is the fold of that instance's attribute array. *)
Theorem normalization_keeps_order_and_fields (l : list JSON)
    (ests : list McpServer.estacionamiento) :
  McpServer.estacionamientos (Some (JArr l)) = Ok ests →
  List.length ests = List.length l ∧
  ∀ i est, l !! i = Some est →
    ∃ e, ests !! i = Some e ∧
         JObj (McpServer.est_props e) = est ∧
         McpServer.contenido_reduce est = Ok (McpServer.detalles e).
Proof.
  intros Hests. destruct (mapM_lookup _ _ _ Hests) as [Hlen Hlook].
  split; [exact Hlen |].
  intros i est Hi. destruct (Hlook i est Hi) as (e & Hei & Hnorm).
  exists e. split; [exact Hei |].
  unfold McpServer.normalize in Hnorm.
  destruct (McpServer.contenido_reduce est) as [d | err] eqn:Hd; [| discriminate Hnorm].
  rewrite bind_Ok in Hnorm. injection Hnorm as <-. split; [| reflexivity].
  destruct est; try discriminate Hd. reflexivity.
Qed.

Lemma normalization_keeps_order_and_fields_witness :
  ∃ ests,
    McpServer.estacionamientos (Some (JArr [echague])) = Ok ests ∧
    List.length ests = 1%nat.
Proof.
  destruct (McpServer.estacionamientos (Some (JArr [echague]))) as [ests | e] eqn:H;
    [| discriminate H].
  exists ests. split; [reflexivity |].
  apply (normalization_keeps_order_and_fields [echague] ests H).
Defined.


